(** * ctx MCP server: a shallow embedding of [src/mcp/ctx_mcp_server.py]

    The adapter exposes the [ctx] command-line program as MCP tools.  It has
    three functions: [run_ctx] (process runner), [list_tools] (tool catalog)
    and [call_tool] (dispatcher and response mapper).

    Python values are modelled by [pyval], the argument bag of a tool call by
    a finite map from strings to values, and the one effect of the program,
    [subprocess.run], by a constructor of the program type [prog]: a run of
    the adapter is a tree whose nodes are subprocess invocations and whose
    leaves are returned values or raised exceptions.  A second embedding of
    [call_tool], in [Store], makes the interpreter's store explicit: there
    the [args] list is an object that the call allocates and mutates. *)

From Stdlib Require Import ZArith Ascii String List.
From stdpp Require Import base decidable option list strings gmap pretty.

Set Warnings "-register-all".
Open Scope Z_scope.

(** ** Python values *)

(** The values an argument bag decoded from JSON can hold.  Characters of a
    [str] are modelled by [ascii]; numbers are the integers. *)
Inductive pyval : Type :=
  | PyNone
  | PyBool (b : bool)
  | PyInt (z : Z)
  | PyStr (s : string)
  | PyList (items : list pyval)
  | PyDict (entries : list (string * pyval)).

(** [bool(v)]: the truth value tested by [if v:]. *)
Definition truthy (v : pyval) : bool :=
  match v with
  | PyNone => false
  | PyBool b => b
  | PyInt z => negb (z =? 0)
  | PyStr s => negb (String.eqb s EmptyString)
  | PyList items => match items with [] => false | _ => true end
  | PyDict entries => match entries with [] => false | _ => true end
  end.

(** The line feed character, written [\n] in the source. *)
Definition LF : ascii := Eval cbv in ascii_of_nat 10.

Definition newline : string := String LF EmptyString.

(** ** Exceptions and the program type *)

Inductive exn : Type :=
  | KeyError (key : string)
  | TypeError (msg : string)
  | FileNotFoundError
  | TimeoutExpired
  | OtherException (what : string).

(** [subprocess.CompletedProcess] with [capture_output=True, text=True]. *)
Record CompletedProcess : Type := mkCompleted {
  stdout : string;
  stderr : string;
  returncode : Z
}.

(** What one call of [subprocess.run] does: it returns or it raises. *)
Inductive outcome : Type :=
  | Completed (result : CompletedProcess)
  | Raised (e : exn).

(** How one run of the backend process ends, as the operating system has
    it: the process could not be started (the exception says why), it did
    not exit within the timeout, or it exited with a code and an output.
    The output is [None] when the captured bytes are not text in the
    locale's encoding. *)
Inductive process_end : Type :=
  | NotStarted (e : exn)
  | Overran
  | Exited (code : Z) (output : option (string * string)).

(** [subprocess.run(..., capture_output=True, text=True, timeout=...)] of the
    standard library on such a run: a failed start raises its exception, an
    overrun raises [TimeoutExpired], an exit gives a [CompletedProcess] when
    the output decodes and raises [UnicodeDecodeError] when it does not. *)
Definition subprocess_run (p : process_end) : outcome :=
  match p with
  | NotStarted e => Raised e
  | Overran => Raised TimeoutExpired
  | Exited code (Some (out, err)) => Completed (mkCompleted out err code)
  | Exited code None => Raised (OtherException "UnicodeDecodeError")
  end.

(** Programs over the single effect [subprocess.run(cmd, timeout=...)]. *)
Inductive prog (A : Type) : Type :=
  | Ret (a : A)
  | Raise (e : exn)
  | SubprocessRun (cmd : list pyval) (timeout : Z) (k : outcome -> prog A).

Arguments Ret {A} a.
Arguments Raise {A} e.
Arguments SubprocessRun {A} cmd timeout k.

Fixpoint bind {A B : Type} (m : prog A) (f : A -> prog B) : prog B :=
  match m with
  | Ret a => f a
  | Raise e => Raise e
  | SubprocessRun cmd timeout k => SubprocessRun cmd timeout (fun o => bind (k o) f)
  end.

Notation "'let*' x ':=' m 'in' k" := (bind m (fun x => k))
  (at level 10, x name, m at level 100, k at level 200).

(** ** Dictionary access *)

(** [d.get(key)]. *)
Definition dict_get (d : gmap string pyval) (key : string) : pyval :=
  default PyNone (d !! key).

(** [d.get(key, dflt)]. *)
Definition dict_get_default (d : gmap string pyval) (key : string) (dflt : pyval) : pyval :=
  default dflt (d !! key).

(** [d[key]]. *)
Definition subscript (d : gmap string pyval) (key : string) : prog pyval :=
  match d !! key with
  | Some v => Ret v
  | None => Raise (KeyError key)
  end.

(** The characters of a string, each as a string of length one.  One
    [ascii] stands for one character: this is what iterating a Python [str]
    gives for a string of ASCII characters. *)
Fixpoint chars (s : string) : list pyval :=
  match s with
  | EmptyString => []
  | String c rest => PyStr (String c EmptyString) :: chars rest
  end.

(** Iteration as [list.extend] performs it: a list yields its items, a string
    its characters, a dict its keys; the other values are not iterable. *)
Definition py_iter (v : pyval) : prog (list pyval) :=
  match v with
  | PyList items => Ret items
  | PyStr s => Ret (chars s)
  | PyDict entries => Ret (map (fun kv => PyStr (fst kv)) entries)
  | PyNone => Raise (TypeError "'NoneType' object is not iterable")
  | PyBool _ => Raise (TypeError "'bool' object is not iterable")
  | PyInt _ => Raise (TypeError "'int' object is not iterable")
  end.

(** ** Process runner *)

(** [run_ctx]: one [subprocess.run] of [ctx] followed by the arguments, with
    [timeout=60]; the two [except] clauses turn [FileNotFoundError] and
    [TimeoutExpired] into fixed triples, any other exception propagates. *)
Definition run_ctx (args : list pyval) : prog (string * string * Z) :=
  SubprocessRun (PyStr "ctx" :: args) 60 (fun o =>
    match o with
    | Completed result => Ret (stdout result, stderr result, returncode result)
    | Raised FileNotFoundError =>
        Ret (EmptyString, "ctx not found in PATH. Please install ctx first."%string, 1)
    | Raised TimeoutExpired =>
        Ret (EmptyString, "Command timed out after 60 seconds"%string, 1)
    | Raised e => Raise e
    end).

(** ** Protocol types *)

Record TextContent : Type := mkTextContent {
  type : string;
  text : string
}.

Record Tool : Type := mkTool {
  name : string;
  description : string;
  inputSchema : pyval
}.

(** ** Tool catalog *)

Definition schema (properties : list (string * pyval)) (required : list pyval) : pyval :=
  PyDict [("type"%string, PyStr "object");
          ("properties"%string, PyDict properties);
          ("required"%string, PyList required)].

Definition property (ty descr : string) : pyval :=
  PyDict [("type"%string, PyStr ty); ("description"%string, PyStr descr)].

Definition array_property (item_ty descr : string) : pyval :=
  PyDict [("type"%string, PyStr "array");
          ("items"%string, PyDict [("type"%string, PyStr item_ty)]);
          ("description"%string, PyStr descr)].

(** [list_tools()]: the function takes no argument and returns a list
    literal. *)
Definition list_tools : prog (list Tool) :=
  Ret [
    mkTool "ctx_status"
      "Get project status overview including git branch, recent commits, and hot directories. Use this first when exploring a new codebase."
      (schema [] []);
    mkTool "ctx_map"
      "Show project directory structure with file counts. Better than ls/find for understanding codebase layout."
      (schema [("path"%string, property "string" "Path to map (default: current directory)");
               ("depth"%string, property "integer" "Maximum depth to traverse")]
              []);
    mkTool "ctx_summarize"
      "Extract symbols (functions, classes, etc.) from files using tree-sitter AST parsing. Much faster than reading entire files when you just need structure."
      (schema [("paths"%string, array_property "string" "File or directory paths to summarize");
               ("skeleton"%string, property "boolean" "Show only function/class signatures");
               ("depth"%string, property "integer" "Maximum depth for directory summarization")]
              [PyStr "paths"]);
    mkTool "ctx_search"
      "Search codebase for text, symbol definitions, or function callers. Use --symbol for precise definition matching. Use --caller to find all call sites of a function (AST-based, impossible with grep)."
      (schema [("query"%string, property "string" "Search query");
               ("symbol"%string, property "boolean" "Search for symbol definitions only (not usage)");
               ("caller"%string, property "boolean" "Find callers of a function (AST-based)");
               ("context"%string, property "integer" "Lines of context to show around matches")]
              [PyStr "query"]);
    mkTool "ctx_related"
      "Find files related to a given file through imports, reverse imports, co-changes in git history, and associated test files."
      (schema [("file"%string, property "string" "File path to find relations for")]
              [PyStr "file"]);
    mkTool "ctx_diff_context"
      "Show git diff with expanded function context. Better than raw git diff for understanding what changed."
      (schema [("git_ref"%string, property "string" "Git ref to diff against (default: uncommitted changes)")]
              []);
    mkTool "ctx_schema"
      "Get JSON schema for a command's output format. Useful for understanding output structure."
      (schema [("command"%string, property "string" "Command to get schema for (status, map, summarize, search, related, diff-context)")]
              [PyStr "command"]);
    mkTool "ctx_version"
      "Get ctx version and capabilities including supported languages, commands, and features."
      (schema [] [])
  ].

(** ** Running a program against the outside world *)

(** How a program ends. *)
Inductive result (A : Type) : Type :=
  | Returned (a : A)
  | Raises (e : exn).

Arguments Returned {A} a.
Arguments Raises {A} e.

(** One entry of the log of subprocess invocations. *)
Record invocation : Type := mkInvocation {
  inv_cmd : list pyval;
  inv_timeout : Z;
  inv_outcome : outcome
}.

(** The outside world decides what each [subprocess.run] does.  Its answer
    may depend on the command, on the timeout and on how many invocations
    have been made before (the time [t]). *)
Definition world : Type := nat -> list pyval -> Z -> outcome.

(** [exec w t p] runs [p] from time [t]; it gives the log of the invocations
    made, in order, and the way [p] ends. *)
Fixpoint exec {A : Type} (w : world) (t : nat) (p : prog A)
  : list invocation * result A :=
  match p with
  | Ret a => ([], Returned a)
  | Raise e => ([], Raises e)
  | SubprocessRun cmd timeout k =>
      let o := w t cmd timeout in
      let '(log, r) := exec w (S t) (k o) in
      (mkInvocation cmd timeout o :: log, r)
  end.

(** ** Dispatcher and response mapper *)

Definition text_content (s : string) : TextContent :=
  {| type := "text"; text := s |}.

(** The text built when [code != 0]. *)
Definition error_text (out err : string) (code : Z) : string :=
  let error_msg :=
    if negb (String.eqb err EmptyString) then err
    else ("Command failed with exit code " +:+ pretty code)%string in
  ("Error: " +:+ error_msg +:+ newline +:+ newline +:+ "Output: " +:+ out)%string.

(** The tail of [call_tool] shared by the eight known tools: the value
    returned once [run_ctx] has given [(stdout, stderr, code)]. *)
Definition respond (r : string * string * Z) : list TextContent :=
  let '(out, err, code) := r in
  if negb (code =? 0) then [text_content (error_text out err code)]
  else [text_content out].

Section Dispatcher.

(** [str] of a list or a dict is Python's [repr] of the container; its
    quoting rules are left to a parameter. *)
Variable repr_container : pyval -> string.

(** [str(v)]. *)
Definition py_str (v : pyval) : string :=
  match v with
  | PyNone => "None"
  | PyBool true => "True"
  | PyBool false => "False"
  | PyInt z => pretty z
  | PyStr s => s
  | PyList _ | PyDict _ => repr_container v
  end.

(** [call_tool(name, arguments)]. *)
Definition call_tool (name : string) (arguments : gmap string pyval)
  : prog (list TextContent) :=
  if decide (name = "ctx_status") then
    let* r := run_ctx [PyStr "status"; PyStr "--json"] in Ret (respond r)
  else if decide (name = "ctx_map") then
    let args := [PyStr "map"; PyStr "--json"] in
    let* args := (if truthy (dict_get arguments "path")
                  then let* v := subscript arguments "path" in Ret (args ++ [v])
                  else Ret args) in
    let* args := (if truthy (dict_get arguments "depth")
                  then let* v := subscript arguments "depth" in
                       Ret (args ++ [PyStr "--depth"; PyStr (py_str v)])
                  else Ret args) in
    let* r := run_ctx args in Ret (respond r)
  else if decide (name = "ctx_summarize") then
    let args := [PyStr "summarize"; PyStr "--json"] in
    let args := if truthy (dict_get arguments "skeleton")
                then args ++ [PyStr "--skeleton"] else args in
    let* args := (if truthy (dict_get arguments "depth")
                  then let* v := subscript arguments "depth" in
                       Ret (args ++ [PyStr "--depth"; PyStr (py_str v)])
                  else Ret args) in
    let* paths := py_iter (dict_get_default arguments "paths" (PyList [])) in
    let* r := run_ctx (args ++ paths) in Ret (respond r)
  else if decide (name = "ctx_search") then
    let args := [PyStr "search"; PyStr "--json"] in
    let args := if truthy (dict_get arguments "symbol")
                then args ++ [PyStr "--symbol"] else args in
    let args := if truthy (dict_get arguments "caller")
                then args ++ [PyStr "--caller"] else args in
    let* args := (if truthy (dict_get arguments "context")
                  then let* v := subscript arguments "context" in
                       Ret (args ++ [PyStr "-C"; PyStr (py_str v)])
                  else Ret args) in
    let* query := subscript arguments "query" in
    let* r := run_ctx (args ++ [query]) in Ret (respond r)
  else if decide (name = "ctx_related") then
    let* file := subscript arguments "file" in
    let* r := run_ctx [PyStr "related"; PyStr "--json"; file] in Ret (respond r)
  else if decide (name = "ctx_diff_context") then
    let args := [PyStr "diff-context"; PyStr "--json"] in
    let* args := (if truthy (dict_get arguments "git_ref")
                  then let* v := subscript arguments "git_ref" in Ret (args ++ [v])
                  else Ret args) in
    let* r := run_ctx args in Ret (respond r)
  else if decide (name = "ctx_schema") then
    let* command := subscript arguments "command" in
    let* r := run_ctx [PyStr "schema"; command] in Ret (respond r)
  else if decide (name = "ctx_version") then
    let* r := run_ctx [PyStr "version"; PyStr "--json"] in Ret (respond r)
  else
    Ret [text_content ("Unknown tool: " +:+ name)].

End Dispatcher.

(** ** The dispatcher over the interpreter's store

    [call_tool] builds its command in a list object, [args], that it
    mutates with [append] and [extend], and it receives its argument bag as a
    dict object that the caller owns.  Here the store of such objects is
    explicit: a program can allocate a list, mutate a list, read a list and
    read a dict, besides running the subprocess.  The values held by the
    argument bag are taken as they are: the source calls no mutating method
    on them. *)
Module Store.

(** The objects of the store: lists, dicts, and anything else the module
    holds (the [server] object). *)
Inductive object : Type :=
  | ListObject (items : list pyval)
  | DictObject (entries : gmap string pyval)
  | OtherObject (what : string).

(** Programs over the store and the subprocess. *)
Inductive action (A : Type) : Type :=
  | Done (a : A)
  | Fail (e : exn)
  | NewList (items : list pyval) (k : nat -> action A)
  | ListAppend (l : nat) (v : pyval) (k : action A)
  | ListExtend (l : nat) (vs : list pyval) (k : action A)
  | ListRead (l : nat) (k : list pyval -> action A)
  | DictLookup (d : nat) (key : string) (k : option pyval -> action A)
  | Subprocess (cmd : list pyval) (timeout : Z) (k : outcome -> action A).

Arguments Done {A} a.
Arguments Fail {A} e.
Arguments NewList {A} items k.
Arguments ListAppend {A} l v k.
Arguments ListExtend {A} l vs k.
Arguments ListRead {A} l k.
Arguments DictLookup {A} d key k.
Arguments Subprocess {A} cmd timeout k.

Fixpoint bind {A B : Type} (m : action A) (f : A -> action B) : action B :=
  match m with
  | Done a => f a
  | Fail e => Fail e
  | NewList items k => NewList items (fun l => bind (k l) f)
  | ListAppend l v k => ListAppend l v (bind k f)
  | ListExtend l vs k => ListExtend l vs (bind k f)
  | ListRead l k => ListRead l (fun items => bind (k items) f)
  | DictLookup d key k => DictLookup d key (fun o => bind (k o) f)
  | Subprocess cmd timeout k => Subprocess cmd timeout (fun o => bind (k o) f)
  end.

Notation "'let+' x ':=' m 'in' k" := (bind m (fun x => k))
  (at level 10, x name, m at level 100, k at level 200).

(** A program that does not touch the store, as a program over the store. *)
Fixpoint lift {A : Type} (p : prog A) : action A :=
  match p with
  | Ret a => Done a
  | Raise e => Fail e
  | SubprocessRun cmd timeout k => Subprocess cmd timeout (fun o => lift (k o))
  end.

(** A list display: a new list object. *)
Definition new_list (items : list pyval) : action nat := NewList items Done.

(** [l.append(v)]. *)
Definition append (l : nat) (v : pyval) : action unit := ListAppend l v (Done tt).

(** [l.extend(vs)]. *)
Definition extend (l : nat) (vs : list pyval) : action unit := ListExtend l vs (Done tt).

(** The items of a list object, as [*l] unpacks them. *)
Definition unpack (l : nat) : action (list pyval) := ListRead l Done.

(** [d.get(key)]. *)
Definition dict_get (d : nat) (key : string) : action pyval :=
  DictLookup d key (fun o => Done (default PyNone o)).

(** [d.get(key, dflt)]. *)
Definition dict_get_default (d : nat) (key : string) (dflt : pyval) : action pyval :=
  DictLookup d key (fun o => Done (default dflt o)).

(** [d[key]]. *)
Definition subscript (d : nat) (key : string) : action pyval :=
  DictLookup d key (fun o =>
    match o with
    | Some v => Done v
    | None => Fail (KeyError key)
    end).

(** [run w t h p] runs [p] from time [t] in the store [h]; it gives the
    store left, the log of the invocations made and the way [p] ends.  A new
    object takes a location that holds nothing. *)
Fixpoint run {A : Type} (w : world) (t : nat) (h : gmap nat object) (p : action A)
  : gmap nat object * list invocation * result A :=
  match p with
  | Done a => (h, [], Returned a)
  | Fail e => (h, [], Raises e)
  | NewList items k =>
      let l := fresh (dom h) in
      run w t (<[l := ListObject items]> h) (k l)
  | ListAppend l v k =>
      match h !! l with
      | Some (ListObject items) => run w t (<[l := ListObject (items ++ [v])]> h) k
      | _ => (h, [], Raises (OtherException "AttributeError"))
      end
  | ListExtend l vs k =>
      match h !! l with
      | Some (ListObject items) => run w t (<[l := ListObject (items ++ vs)]> h) k
      | _ => (h, [], Raises (OtherException "AttributeError"))
      end
  | ListRead l k =>
      match h !! l with
      | Some (ListObject items) => run w t h (k items)
      | _ => (h, [], Raises (TypeError "argument after * must be an iterable"))
      end
  | DictLookup d key k =>
      match h !! d with
      | Some (DictObject entries) => run w t h (k (entries !! key))
      | _ => (h, [], Raises (OtherException "AttributeError"))
      end
  | Subprocess cmd timeout k =>
      let o := w t cmd timeout in
      let '(h', log, r) := run w (S t) h (k o) in
      (h', mkInvocation cmd timeout o :: log, r)
  end.

Section Dispatcher.

Variable repr_container : pyval -> string.

(** [call_tool(name, arguments)], statement by statement; [arguments] is
    the location of the argument bag. *)
Definition call_tool (name : string) (arguments : nat) : action (list TextContent) :=
  if decide (name = "ctx_status") then
    let+ r := lift (run_ctx [PyStr "status"; PyStr "--json"]) in Done (respond r)
  else if decide (name = "ctx_map") then
    let+ args := new_list [PyStr "map"; PyStr "--json"] in
    let+ path := dict_get arguments "path" in
    let+ _ := (if truthy path
               then let+ v := subscript arguments "path" in append args v
               else Done tt) in
    let+ depth := dict_get arguments "depth" in
    let+ _ := (if truthy depth
               then let+ v := subscript arguments "depth" in
                    extend args [PyStr "--depth"; PyStr (py_str repr_container v)]
               else Done tt) in
    let+ items := unpack args in
    let+ r := lift (run_ctx items) in Done (respond r)
  else if decide (name = "ctx_summarize") then
    let+ args := new_list [PyStr "summarize"; PyStr "--json"] in
    let+ skeleton := dict_get arguments "skeleton" in
    let+ _ := (if truthy skeleton then append args (PyStr "--skeleton") else Done tt) in
    let+ depth := dict_get arguments "depth" in
    let+ _ := (if truthy depth
               then let+ v := subscript arguments "depth" in
                    extend args [PyStr "--depth"; PyStr (py_str repr_container v)]
               else Done tt) in
    let+ paths := dict_get_default arguments "paths" (PyList []) in
    let+ more := lift (py_iter paths) in
    let+ _ := extend args more in
    let+ items := unpack args in
    let+ r := lift (run_ctx items) in Done (respond r)
  else if decide (name = "ctx_search") then
    let+ args := new_list [PyStr "search"; PyStr "--json"] in
    let+ symbol := dict_get arguments "symbol" in
    let+ _ := (if truthy symbol then append args (PyStr "--symbol") else Done tt) in
    let+ caller := dict_get arguments "caller" in
    let+ _ := (if truthy caller then append args (PyStr "--caller") else Done tt) in
    let+ context := dict_get arguments "context" in
    let+ _ := (if truthy context
               then let+ v := subscript arguments "context" in
                    extend args [PyStr "-C"; PyStr (py_str repr_container v)]
               else Done tt) in
    let+ query := subscript arguments "query" in
    let+ _ := append args query in
    let+ items := unpack args in
    let+ r := lift (run_ctx items) in Done (respond r)
  else if decide (name = "ctx_related") then
    let+ file := subscript arguments "file" in
    let+ r := lift (run_ctx [PyStr "related"; PyStr "--json"; file]) in
    Done (respond r)
  else if decide (name = "ctx_diff_context") then
    let+ args := new_list [PyStr "diff-context"; PyStr "--json"] in
    let+ git_ref := dict_get arguments "git_ref" in
    let+ _ := (if truthy git_ref
               then let+ v := subscript arguments "git_ref" in append args v
               else Done tt) in
    let+ items := unpack args in
    let+ r := lift (run_ctx items) in Done (respond r)
  else if decide (name = "ctx_schema") then
    let+ command := subscript arguments "command" in
    let+ r := lift (run_ctx [PyStr "schema"; command]) in Done (respond r)
  else if decide (name = "ctx_version") then
    let+ r := lift (run_ctx [PyStr "version"; PyStr "--json"]) in Done (respond r)
  else
    Done [text_content ("Unknown tool: " +:+ name)].

End Dispatcher.

End Store.

(** The names of the catalog, in order. *)
Definition tool_names : list string :=
  match list_tools with
  | Ret tools => map name tools
  | _ => []
  end.

(** The keys a descriptor declares as required. *)
Definition required_keys (t : Tool) : list string :=
  match inputSchema t with
  | PyDict entries =>
      match snd <$> find (fun kv => String.eqb (fst kv) "required") entries with
      | Some (PyList keys) =>
          omap (fun v => match v with PyStr s => Some s | _ => None end) keys
      | _ => []
      end
  | _ => []
  end.

(** The required keys the catalog declares for a tool name. *)
Definition declared_required (nm : string) : list string :=
  match list_tools with
  | Ret tools =>
      match find (fun t => String.eqb (name t) nm) tools with
      | Some t => required_keys t
      | None => []
      end
  | _ => []
  end.

(** What [call_tool] answers for a known tool once the backend invocation
    had outcome [o]: the end of [run_ctx] followed by the response mapper. *)
Definition reply (o : outcome) : result (list TextContent) :=
  snd (exec (fun _ _ _ => o) 0 (let* r := run_ctx [] in Ret (respond r))).

(** What [run_ctx] hands to the response mapper after an invocation with
    outcome [o]. *)
Definition run_ctx_end (o : outcome) : result (string * string * Z) :=
  snd (exec (fun _ _ _ => o) 0 (run_ctx [])).

(** A text is one line when it has no line feed. *)
Fixpoint one_line (s : string) : bool :=
  match s with
  | EmptyString => true
  | String c rest => negb (Ascii.eqb c LF) && one_line rest
  end.

(** ** Catalog declarations and admissible argument bags *)

(** The property keys a descriptor declares. *)
Definition property_keys (t : Tool) : list string :=
  match inputSchema t with
  | PyDict entries =>
      match snd <$> find (fun kv => String.eqb (fst kv) "properties") entries with
      | Some (PyDict props) => map fst props
      | _ => []
      end
  | _ => []
  end.

(** The optional keys of a tool name: the declared properties that are not
    declared required. *)
Definition declared_optional (nm : string) : list string :=
  match list_tools with
  | Ret tools =>
      match find (fun t => String.eqb (name t) nm) tools with
      | Some t =>
          List.filter (fun k => negb (existsb (String.eqb k) (required_keys t)))
                      (property_keys t)
      | None => []
      end
  | _ => []
  end.

(** Values [list.extend] accepts. *)
Definition iterable (v : pyval) : bool :=
  match v with
  | PyList _ | PyStr _ | PyDict _ => true
  | _ => false
  end.

(** [key in d]. *)
Definition has_key (d : gmap string pyval) (key : string) : bool :=
  match d !! key with
  | Some _ => true
  | None => false
  end.

(** The argument bags from which [call_tool] builds a command line: the key
    read by subscript is present, and what [ctx_summarize] extends its
    arguments with is iterable. *)
Definition arguments_admissible (nm : string) (arguments : gmap string pyval) : bool :=
  if decide (nm = "ctx_summarize") then
    iterable (dict_get_default arguments "paths" (PyList []))
  else if decide (nm = "ctx_search") then has_key arguments "query"
  else if decide (nm = "ctx_related") then has_key arguments "file"
  else if decide (nm = "ctx_schema") then has_key arguments "command"
  else true.

(** A [repr] for the examples, none of which renders a container. *)
Definition repr_opaque (v : pyval) : string := "<container>".

(** ** Catalog lookups, schema conformance and naming *)

(** The descriptor the catalog holds for a tool name. *)
Definition find_tool (nm : string) : option Tool :=
  match list_tools with
  | Ret tools => find (fun t => String.eqb (name t) nm) tools
  | _ => None
  end.

(** The property keys the catalog declares for a tool name. *)
Definition declared_properties (nm : string) : list string :=
  match find_tool nm with
  | Some t => property_keys t
  | None => []
  end.

(** [isinstance(v, str)]. *)
Definition is_str (v : pyval) : bool :=
  match v with
  | PyStr _ => true
  | _ => false
  end.

(** The entry of a dict literal under a key. *)
Definition entry (key : string) (entries : list (string * pyval)) : option pyval :=
  snd <$> find (fun kv => String.eqb (fst kv) key) entries.

(** A value has one of the scalar JSON types the catalog uses. *)
Definition has_scalar_type (ty : string) (v : pyval) : bool :=
  match v with
  | PyStr _ => String.eqb ty "string"
  | PyInt _ => String.eqb ty "integer"
  | PyBool _ => String.eqb ty "boolean"
  | _ => false
  end.

(** A value conforms to a property declaration of the catalog: a scalar of
    the declared type, or an array whose items have the declared type. *)
Definition conforms_property (prop v : pyval) : bool :=
  match prop with
  | PyDict decl =>
      match entry "type" decl with
      | Some (PyStr ty) =>
          if String.eqb ty "array" then
            match v, entry "items" decl with
            | PyList items, Some (PyDict item_decl) =>
                match entry "type" item_decl with
                | Some (PyStr item_ty) => forallb (has_scalar_type item_ty) items
                | _ => false
                end
            | _, _ => false
            end
          else has_scalar_type ty v
      | _ => false
      end
  | _ => false
  end.

(** An argument bag conforms to the input schema of a descriptor: every
    required key is present and every declared property that is present has
    a value of its declared type.  Other keys are allowed. *)
Definition conforms (t : Tool) (arguments : gmap string pyval) : bool :=
  forallb (has_key arguments) (required_keys t)
  && match inputSchema t with
     | PyDict entries =>
         match entry "properties" entries with
         | Some (PyDict props) =>
             forallb (fun kp => match arguments !! fst kp with
                                | Some v => conforms_property (snd kp) v
                                | None => true
                                end) props
         | _ => false
         end
     | _ => false
     end.

(** A property declaration carries a type and a description, both strings. *)
Definition well_declared (prop : pyval) : bool :=
  match prop with
  | PyDict decl =>
      match entry "type" decl, entry "description" decl with
      | Some (PyStr _), Some (PyStr _) => true
      | _, _ => false
      end
  | _ => false
  end.

(** The property declarations of a descriptor. *)
Definition property_declarations (t : Tool) : list pyval :=
  match inputSchema t with
  | PyDict entries =>
      match entry "properties" entries with
      | Some (PyDict props) => map snd props
      | _ => []
      end
  | _ => []
  end.

Definition underscore : ascii := Eval cbv in ascii_of_nat 95.
Definition hyphen : ascii := Eval cbv in ascii_of_nat 45.

(** A string with every underscore turned into a hyphen. *)
Fixpoint hyphenate (s : string) : string :=
  match s with
  | EmptyString => EmptyString
  | String c rest => String (if Ascii.eqb c underscore then hyphen else c) (hyphenate rest)
  end.

(** A string without its first [n] characters. *)
Fixpoint skip (n : nat) (s : string) : string :=
  match n, s with
  | O, _ => s
  | S n', String _ rest => skip n' rest
  | S _, EmptyString => EmptyString
  end.

(** The [ctx] subcommand a tool name stands for: the name without its
    [ctx_] prefix, hyphenated. *)
Definition subcommand (nm : string) : string := hyphenate (skip 4 nm).

(** A string whose characters are all ASCII (code below 128): for such a
    string one [ascii] is one character of the Python [str]. *)
Fixpoint ascii_only (s : string) : bool :=
  match s with
  | EmptyString => true
  | String (Ascii _ _ _ _ _ _ _ high) rest => negb high && ascii_only rest
  end.

(** The concatenation of the strings of a list of values. *)
Fixpoint join_strs (l : list pyval) : string :=
  match l with
  | [] => EmptyString
  | PyStr s :: rest => (s +:+ join_strs rest)%string
  | _ :: rest => join_strs rest
  end.

(** * Properties *)

(** ** Basic facts *)

Lemma string_length_app (a b : string) :
  String.length (a +:+ b) = (String.length a + String.length b)%nat.
Proof.
  induction a as [|c a IH]; simpl; [reflexivity|].
  now rewrite IH.
Qed.

Lemma one_line_app (a b : string) :
  one_line (a +:+ b) = one_line a && one_line b.
Proof.
  induction a as [|c a IH]; simpl; [reflexivity|].
  rewrite IH. now rewrite andb_assoc.
Qed.

Lemma error_text_longer (out err : string) (code : Z) :
  (String.length out < String.length (error_text out err code))%nat.
Proof.
  unfold error_text. rewrite !string_length_app. simpl. lia.
Qed.

Lemma error_text_not_out (out err : string) (code : Z) :
  error_text out err code ≠ out.
Proof.
  intros E. pose proof (error_text_longer out err code) as L.
  rewrite E in L. lia.
Qed.

Lemma error_text_lines (out err : string) (code : Z) :
  one_line (error_text out err code) = false.
Proof.
  unfold error_text. rewrite !one_line_app. simpl.
  now rewrite !andb_false_r.
Qed.

(** Running the shared tail: one invocation of [ctx] with a timeout of 60,
    then [reply]. *)
Lemma exec_run_respond (w : world) (t : nat) (args : list pyval) :
  exec w t (let* r := run_ctx args in Ret (respond r)) =
  ([mkInvocation (PyStr "ctx" :: args) 60 (w t (PyStr "ctx" :: args) 60)],
   reply (w t (PyStr "ctx" :: args) 60)).
Proof.
  unfold reply. simpl.
  destruct (w t (PyStr "ctx" :: args) 60) as [r | []]; reflexivity.
Qed.

Lemma known_tool_cases (nm : string) :
  nm ∈ tool_names <->
  nm = "ctx_status" \/ nm = "ctx_map" \/ nm = "ctx_summarize" \/
  nm = "ctx_search" \/ nm = "ctx_related" \/ nm = "ctx_diff_context" \/
  nm = "ctx_schema" \/ nm = "ctx_version".
Proof.
  unfold tool_names. simpl. rewrite !elem_of_cons, elem_of_nil. tauto.
Qed.

(** ** Process runner *)

(** C4, as the code has it.  [run_ctx] makes one invocation, of [ctx]
    followed by its arguments, with a timeout of 60 seconds.  When the
    executable is not found it returns the empty output, the text [ctx not
    found in PATH. Please install ctx first.] and code 1; when the timeout
    expires it returns the empty output, the text [Command timed out after 60
    seconds] and code 1; when [subprocess.run] returns it returns the stdout,
    stderr and return code of the process.  Any other exception of
    [subprocess.run] leaves [run_ctx], which then returns nothing: a start
    that fails otherwise, or an output that does not decode. *)
Theorem run_ctx_outcomes (w : world) (t : nat) (args : list pyval) :
  let cmd := PyStr "ctx" :: args in
  let o := w t cmd 60 in
  fst (exec w t (run_ctx args)) =
    [{| inv_cmd := cmd; inv_timeout := 60; inv_outcome := o |}] /\
  (o = Raised FileNotFoundError ->
   snd (exec w t (run_ctx args)) =
   Returned (EmptyString, "ctx not found in PATH. Please install ctx first."%string, 1)) /\
  (o = Raised TimeoutExpired ->
   snd (exec w t (run_ctx args)) =
   Returned (EmptyString, "Command timed out after 60 seconds"%string, 1)) /\
  (forall out err code,
      o = Completed {| stdout := out; stderr := err; returncode := code |} ->
      snd (exec w t (run_ctx args)) = Returned (out, err, code)) /\
  (forall e, o = Raised e -> e <> FileNotFoundError -> e <> TimeoutExpired ->
      snd (exec w t (run_ctx args)) = Raises e) /\
  (forall e, o = subprocess_run (NotStarted e) ->
      e <> FileNotFoundError -> e <> TimeoutExpired ->
      snd (exec w t (run_ctx args)) = Raises e) /\
  (forall code, o = subprocess_run (Exited code None) ->
      snd (exec w t (run_ctx args)) = Raises (OtherException "UnicodeDecodeError")).
Proof.
  simpl. destruct (w t (PyStr "ctx" :: args) 60) as [r | e] eqn:E.
  - repeat split; try discriminate. intros out err code [= ->]. reflexivity.
  - destruct e; repeat split; try discriminate; try reflexivity;
      try (intros e' [= <-] H1 H2; try contradiction; reflexivity);
      try (intros code [= <-]; reflexivity).
Qed.

Lemma run_ctx_outcomes_witness :
  snd (exec (fun _ _ _ => Raised FileNotFoundError) 0 (run_ctx [PyStr "version"])) =
    Returned (EmptyString, "ctx not found in PATH. Please install ctx first."%string, 1) /\
  snd (exec (fun _ _ _ => Raised TimeoutExpired) 0 (run_ctx [PyStr "version"])) =
    Returned (EmptyString, "Command timed out after 60 seconds"%string, 1) /\
  snd (exec (fun _ _ _ => Completed (mkCompleted "1.0" "warn" 2)) 0
         (run_ctx [PyStr "version"])) =
    Returned ("1.0"%string, "warn"%string, 2) /\
  snd (exec (fun _ _ _ => Raised (OtherException "PermissionError")) 0
         (run_ctx [PyStr "version"])) =
    Raises (OtherException "PermissionError").
Proof.
  split; [|split; [|split]].
  - exact (proj1 (proj2 (run_ctx_outcomes
             (fun _ _ _ => Raised FileNotFoundError) 0 [PyStr "version"])) eq_refl).
  - exact (proj1 (proj2 (proj2 (run_ctx_outcomes
             (fun _ _ _ => Raised TimeoutExpired) 0 [PyStr "version"]))) eq_refl).
  - exact (proj1 (proj2 (proj2 (proj2 (run_ctx_outcomes
             (fun _ _ _ => Completed (mkCompleted "1.0" "warn" 2)) 0
             [PyStr "version"])))) _ _ _ eq_refl).
  - apply (proj1 (proj2 (proj2 (proj2 (proj2 (run_ctx_outcomes
             (fun _ _ _ => Raised (OtherException "PermissionError")) 0
             [PyStr "version"])))))); [reflexivity | discriminate | discriminate].
Defined.

(** C4, as stated, fails: a process that is found and exits with code 0
    within the timeout, but whose output does not decode, is none of the two
    failures, and [run_ctx] returns no triple for it; so does a process that
    is found but may not be executed. *)
Lemma run_ctx_otherwise_raises :
  snd (exec (fun _ _ _ => subprocess_run (Exited 0 None)) 0
         (run_ctx [PyStr "version"; PyStr "--json"])) =
    Raises (OtherException "UnicodeDecodeError") /\
  snd (exec (fun _ _ _ => subprocess_run (NotStarted (OtherException "PermissionError")))
         0 (run_ctx [PyStr "version"; PyStr "--json"])) =
    Raises (OtherException "PermissionError").
Proof.
  split; reflexivity.
Qed.

(** ** Tool catalog *)

(** C5. [list_tools] is a constant: whatever the world and the time of the
    call it makes no invocation and returns the same list of eight
    descriptors, named ctx_status, ctx_map, ctx_summarize, ctx_search,
    ctx_related, ctx_diff_context, ctx_schema and ctx_version in this order.
    Each has a non-empty name, a non-empty description and an input schema:
    a dict with the type [object], a dict of properties and a list of
    required keys; the property keys and the required keys of the eight
    schemas are as listed. *)
Theorem list_tools_static :
  exists tools : list Tool,
    (forall (w : world) (t : nat), exec w t list_tools = ([], Returned tools)) /\
    length tools = 8%nat /\
    map name tools =
      ["ctx_status"; "ctx_map"; "ctx_summarize"; "ctx_search"; "ctx_related";
       "ctx_diff_context"; "ctx_schema"; "ctx_version"]%string /\
    Forall (fun t =>
              name t <> EmptyString /\ description t <> EmptyString /\
              exists props req,
                inputSchema t =
                PyDict [("type"%string, PyStr "object");
                        ("properties"%string, PyDict props);
                        ("required"%string, PyList req)]) tools /\
    map (fun t => (property_keys t, required_keys t)) tools =
      [([], []);
       (["path"; "depth"], []);
       (["paths"; "skeleton"; "depth"], ["paths"]);
       (["query"; "symbol"; "caller"; "context"], ["query"]);
       (["file"], ["file"]);
       (["git_ref"], []);
       (["command"], ["command"]);
       ([], [])]%string.
Proof.
  unfold list_tools. eexists. split; [reflexivity|].
  split; [reflexivity|]. split; [reflexivity|]. split; [|reflexivity].
  repeat constructor; try discriminate; simpl; eauto.
Qed.

(** ** Dispatcher *)

Ltac known_tool H :=
  apply known_tool_cases in H;
  destruct H as [-> | [-> | [-> | [-> | [-> | [-> | [-> | ->]]]]]]].

Ltac enter_call_tool :=
  unfold call_tool; repeat case_decide; try congruence;
  unfold subscript, dict_get, dict_get_default.

Ltac split_lookups :=
  repeat match goal with
         | |- context [?m !! ?k] => destruct (m !! k) eqn:?
         end;
  simpl;
  repeat match goal with
         | |- context [truthy ?v] => destruct (truthy v) eqn:?; simpl
         end.

Section DispatcherFacts.

Variable repr_container : pyval -> string.

Lemma call_tool_unknown (nm : string) (arguments : gmap string pyval) :
  nm ∉ tool_names ->
  call_tool repr_container nm arguments = Ret [text_content ("Unknown tool: " +:+ nm)].
Proof.
  intros H. rewrite known_tool_cases in H.
  unfold call_tool. repeat case_decide; tauto.
Qed.

(** The command line of each tool, as one expression. *)

Lemma call_tool_status (arguments : gmap string pyval) :
  call_tool repr_container "ctx_status" arguments =
  (let* r := run_ctx [PyStr "status"; PyStr "--json"] in Ret (respond r)).
Proof. reflexivity. Qed.

Lemma call_tool_map (arguments : gmap string pyval) :
  call_tool repr_container "ctx_map" arguments =
  (let* r := run_ctx
       ([PyStr "map"; PyStr "--json"]
        ++ (if truthy (dict_get arguments "path")
            then [dict_get arguments "path"] else [])
        ++ (if truthy (dict_get arguments "depth")
            then [PyStr "--depth"; PyStr (py_str repr_container (dict_get arguments "depth"))]
            else [])) in
   Ret (respond r)).
Proof. enter_call_tool; split_lookups; reflexivity. Qed.

Lemma call_tool_summarize (arguments : gmap string pyval) :
  call_tool repr_container "ctx_summarize" arguments =
  (let* paths := py_iter (dict_get_default arguments "paths" (PyList [])) in
   let* r := run_ctx
       ([PyStr "summarize"; PyStr "--json"]
        ++ (if truthy (dict_get arguments "skeleton") then [PyStr "--skeleton"] else [])
        ++ (if truthy (dict_get arguments "depth")
            then [PyStr "--depth"; PyStr (py_str repr_container (dict_get arguments "depth"))]
            else [])
        ++ paths) in
   Ret (respond r)).
Proof. enter_call_tool; split_lookups; reflexivity. Qed.

Lemma call_tool_search (arguments : gmap string pyval) :
  call_tool repr_container "ctx_search" arguments =
  (let* query := subscript arguments "query" in
   let* r := run_ctx
       ([PyStr "search"; PyStr "--json"]
        ++ (if truthy (dict_get arguments "symbol") then [PyStr "--symbol"] else [])
        ++ (if truthy (dict_get arguments "caller") then [PyStr "--caller"] else [])
        ++ (if truthy (dict_get arguments "context")
            then [PyStr "-C"; PyStr (py_str repr_container (dict_get arguments "context"))]
            else [])
        ++ [query]) in
   Ret (respond r)).
Proof. enter_call_tool; split_lookups; reflexivity. Qed.

Lemma call_tool_related (arguments : gmap string pyval) :
  call_tool repr_container "ctx_related" arguments =
  (let* file := subscript arguments "file" in
   let* r := run_ctx [PyStr "related"; PyStr "--json"; file] in Ret (respond r)).
Proof. reflexivity. Qed.

Lemma call_tool_diff_context (arguments : gmap string pyval) :
  call_tool repr_container "ctx_diff_context" arguments =
  (let* r := run_ctx
       ([PyStr "diff-context"; PyStr "--json"]
        ++ (if truthy (dict_get arguments "git_ref")
            then [dict_get arguments "git_ref"] else [])) in
   Ret (respond r)).
Proof. enter_call_tool; split_lookups; reflexivity. Qed.

Lemma call_tool_schema (arguments : gmap string pyval) :
  call_tool repr_container "ctx_schema" arguments =
  (let* command := subscript arguments "command" in
   let* r := run_ctx [PyStr "schema"; command] in Ret (respond r)).
Proof. reflexivity. Qed.

Lemma call_tool_version (arguments : gmap string pyval) :
  call_tool repr_container "ctx_version" arguments =
  (let* r := run_ctx [PyStr "version"; PyStr "--json"] in Ret (respond r)).
Proof. reflexivity. Qed.

(** With an admissible argument bag a known tool reaches [run_ctx]. *)
Lemma call_tool_admissible (nm : string) (arguments : gmap string pyval) :
  nm ∈ tool_names ->
  arguments_admissible nm arguments = true ->
  exists args, call_tool repr_container nm arguments =
               (let* r := run_ctx args in Ret (respond r)).
Proof.
  intros H; known_tool H; unfold arguments_admissible;
    repeat case_decide; try congruence; intros Hadm.
  - rewrite call_tool_status; eauto.
  - rewrite call_tool_map; eauto.
  - rewrite call_tool_summarize.
    destruct (dict_get_default arguments "paths" (PyList []));
      try discriminate; simpl; eauto.
  - rewrite call_tool_search. unfold has_key in Hadm. unfold subscript.
    destruct (arguments !! _); [|discriminate]. simpl. eauto.
  - rewrite call_tool_related. unfold has_key in Hadm. unfold subscript.
    destruct (arguments !! _); [|discriminate]. simpl. eauto.
  - rewrite call_tool_diff_context; eauto.
  - rewrite call_tool_schema. unfold has_key in Hadm. unfold subscript.
    destruct (arguments !! _); [|discriminate]. simpl. eauto.
  - rewrite call_tool_version; eauto.
Qed.

(** With any other argument bag it raises before reaching [run_ctx]. *)
Lemma call_tool_inadmissible (nm : string) (arguments : gmap string pyval) :
  nm ∈ tool_names ->
  arguments_admissible nm arguments = false ->
  exists e, call_tool repr_container nm arguments = Raise e.
Proof.
  intros H; known_tool H; unfold arguments_admissible;
    repeat case_decide; try congruence; intros Hadm; try discriminate.
  - rewrite call_tool_summarize.
    destruct (dict_get_default arguments "paths" (PyList []));
      try discriminate; simpl; eauto.
  - rewrite call_tool_search. unfold has_key in Hadm. unfold subscript.
    destruct (arguments !! _); [discriminate|]. simpl. eauto.
  - rewrite call_tool_related. unfold has_key in Hadm. unfold subscript.
    destruct (arguments !! _); [discriminate|]. simpl. eauto.
  - rewrite call_tool_schema. unfold has_key in Hadm. unfold subscript.
    destruct (arguments !! _); [discriminate|]. simpl. eauto.
Qed.

(** A call of a known tool either raises before any invocation or is one
    [run_ctx] followed by the response mapper. *)
Lemma call_tool_known (nm : string) (arguments : gmap string pyval) :
  nm ∈ tool_names ->
  (exists e, call_tool repr_container nm arguments = Raise e) \/
  (exists args, call_tool repr_container nm arguments =
                (let* r := run_ctx args in Ret (respond r))).
Proof.
  intros H. destruct (arguments_admissible nm arguments) eqn:E.
  - right. now apply call_tool_admissible.
  - left. now apply call_tool_inadmissible.
Qed.

(** Whatever the tool name, at most one invocation is made, and the way the
    call ends is a function of the outcome of that invocation. *)
Lemma exec_call_tool (nm : string) (arguments : gmap string pyval) :
  (exists r, forall (w' : world) (t' : nat),
      exec w' t' (call_tool repr_container nm arguments) = ([], r)) \/
  (exists args, forall (w' : world) (t' : nat),
      exec w' t' (call_tool repr_container nm arguments) =
      ([mkInvocation (PyStr "ctx" :: args) 60 (w' t' (PyStr "ctx" :: args) 60)],
       reply (w' t' (PyStr "ctx" :: args) 60))).
Proof.
  destruct (decide (nm ∈ tool_names)) as [Hk | Hk].
  - destruct (call_tool_known nm arguments Hk) as [[e E] | [args E]].
    + left. exists (Raises e). intros. now rewrite E.
    + right. exists args. intros. rewrite E. apply exec_run_respond.
  - left. eexists. intros. rewrite call_tool_unknown by assumption. reflexivity.
Qed.

End DispatcherFacts.

Lemma reply_run_ctx_end (o : outcome) (r : string * string * Z) :
  run_ctx_end o = Returned r -> reply o = Returned (respond r).
Proof.
  unfold run_ctx_end, reply. simpl.
  destruct o as [c | []]; simpl; intros [= <-]; reflexivity.
Qed.

Lemma ctx_blame_unknown : "ctx_blame"%string ∉ tool_names.
Proof.
  rewrite known_tool_cases. intros H.
  repeat (destruct H as [H | H]; [discriminate|]). discriminate.
Qed.


Lemma ctx_status_known : "ctx_status"%string ∈ tool_names.
Proof. rewrite known_tool_cases. tauto. Qed.

Lemma ctx_search_known : "ctx_search"%string ∈ tool_names.
Proof. rewrite known_tool_cases. tauto. Qed.

(** ** Unknown tools *)

(** C9. For a name that is not in the catalog [call_tool] returns a list of
    one text content, of type [text], whose text is [Unknown tool: ] followed
    by the name, and makes no subprocess invocation. *)
Theorem unknown_tool_response (repr : pyval -> string) (w : world) (t : nat)
    (nm : string) (arguments : gmap string pyval) :
  nm ∉ tool_names ->
  exec w t (call_tool repr nm arguments) =
  ([], Returned [{| type := "text"; text := String.append "Unknown tool: " nm |}]).
Proof.
  intros H. now rewrite call_tool_unknown.
Qed.

Lemma unknown_tool_response_witness :
  exec (fun _ _ _ => Raised TimeoutExpired) 0
       (call_tool repr_opaque "ctx_blame" {[ "file"%string := PyStr "a.py" ]}) =
  ([], Returned [{| type := "text"; text := "Unknown tool: ctx_blame" |}]).
Proof.
  exact (unknown_tool_response repr_opaque (fun _ _ _ => Raised TimeoutExpired) 0
           "ctx_blame" {[ "file"%string := PyStr "a.py" ]} ctx_blame_unknown).
Defined.

(** ** Response mapper *)




(** The two fixed failure messages are one line each. *)
Lemma fixed_messages_one_line :
  one_line "ctx not found in PATH. Please install ctx first." = true /\
  one_line "Command timed out after 60 seconds" = true.
Proof. split; reflexivity. Qed.

(** C1, as the code has it.  For a known tool whose call reached [run_ctx],
    with [(out, err, code)] the triple [run_ctx] returned: the response is the
    error text response exactly when [code] is not 0, and it is the plain
    stdout exactly when [code] is 0.  The failures the code handles give a
    single text content of the form [Error: message], an empty line, [Output:
    stdout]: the message is the fixed line for an executable that is not
    found and for a timeout, and stderr (or [Command failed with exit code N]
    when stderr is empty) for a process that returned nonzero.  Such a text
    is never one line.  A start that fails in another way, like any other
    exception of [subprocess.run], gives no text: the exception leaves
    [call_tool]. *)
Theorem error_response_iff (repr : pyval -> string) (w : world) (t : nat)
    (nm : string) (arguments : gmap string pyval) (inv : invocation) :
  nm ∈ tool_names ->
  inv ∈ fst (exec w t (call_tool repr nm arguments)) ->
  let res := snd (exec w t (call_tool repr nm arguments)) in
  let error_line (out err : string) (code : Z) : string :=
    String.append "Error: "
      (String.append
         (if String.eqb err EmptyString
          then String.append "Command failed with exit code " (pretty code)
          else err)
         (String.append newline (String.append newline
            (String.append "Output: " out)))) in
  (forall out err code,
      run_ctx_end (inv_outcome inv) = Returned (out, err, code) ->
      (res = Returned [{| type := "text"; text := error_line out err code |}]
       <-> code <> 0) /\
      (res = Returned [{| type := "text"; text := out |}] <-> code = 0)) /\
  (inv_outcome inv = Raised FileNotFoundError ->
   res = Returned [{| type := "text";
                      text := String.append
                        "Error: ctx not found in PATH. Please install ctx first."
                        (String.append newline (String.append newline "Output: ")) |}]) /\
  (inv_outcome inv = Raised TimeoutExpired ->
   res = Returned [{| type := "text";
                      text := String.append
                        "Error: Command timed out after 60 seconds"
                        (String.append newline (String.append newline "Output: ")) |}]) /\
  (forall out err code,
      inv_outcome inv =
        Completed {| stdout := out; stderr := err; returncode := code |} ->
      code <> 0 ->
      res = Returned [{| type := "text"; text := error_line out err code |}]) /\
  (forall e,
      inv_outcome inv = Raised e ->
      e <> FileNotFoundError -> e <> TimeoutExpired ->
      res = Raises e) /\
  (forall e,
      inv_outcome inv = subprocess_run (NotStarted e) ->
      e <> FileNotFoundError -> e <> TimeoutExpired ->
      res = Raises e) /\
  (forall out err code, one_line (error_line out err code) = false).
Proof.
  intros _ Hin res error_line. subst res.
  assert (Hline : forall out err code, error_line out err code = error_text out err code).
  { intros out err code. unfold error_line, error_text.
    destruct (String.eqb err EmptyString); reflexivity. }
  destruct (exec_call_tool repr nm arguments) as [[res E] | [args E]];
    rewrite E in *; cbn [fst snd] in *.
  { now apply elem_of_nil in Hin. }
  apply list_elem_of_singleton in Hin. subst inv. cbn [inv_outcome].
  set (o := w t (PyStr "ctx" :: args) 60).
  split; [|split; [|split; [|split; [|split; [|split]]]]].
  - intros out err code Hend. rewrite (reply_run_ctx_end _ _ Hend), Hline.
    unfold respond. destruct (Z.eqb_spec code 0) as [-> | Hne]; simpl.
    + split.
      * split; [|congruence]. intros [= Heq]. symmetry in Heq.
        now apply error_text_not_out in Heq.
      * tauto.
    + split.
      * tauto.
      * split; [|congruence]. intros [= Heq].
        now apply error_text_not_out in Heq.
  - intros ->. reflexivity.
  - intros ->. reflexivity.
  - intros out err code -> Hne. rewrite Hline. unfold reply. simpl.
    destruct (Z.eqb_spec code 0) as [Hz | _]; [contradiction|]. reflexivity.
  - intros e -> H1 H2. destruct e; try contradiction; reflexivity.
  - intros e -> H1 H2. destruct e; try contradiction; reflexivity.
  - intros out err code. rewrite Hline. apply error_text_lines.
Qed.

Lemma error_response_iff_witness :
  snd (exec (fun _ _ _ => Completed (mkCompleted "partial" "" (-9))) 0
         (call_tool repr_opaque "ctx_status" ∅)) =
    Returned [{| type := "text";
                 text := String.append "Error: Command failed with exit code -9"
                           (String.append newline
                              (String.append newline "Output: partial")) |}] /\
  snd (exec (fun _ _ _ => Raised (OtherException "PermissionError")) 0
         (call_tool repr_opaque "ctx_status" ∅)) =
    Raises (OtherException "PermissionError").
Proof.
  split.
  - exact (proj1 (proj2 (proj2 (proj2
      (error_response_iff repr_opaque
         (fun _ _ _ => Completed (mkCompleted "partial" "" (-9))) 0 "ctx_status" ∅
         (mkInvocation [PyStr "ctx"; PyStr "status"; PyStr "--json"] 60
            (Completed (mkCompleted "partial" "" (-9))))
         ctx_status_known
         (proj2 (list_elem_of_singleton _ _) eq_refl)))))
      "partial" EmptyString (-9) eq_refl ltac:(discriminate)).
  - apply (proj1 (proj2 (proj2 (proj2 (proj2
      (error_response_iff repr_opaque
         (fun _ _ _ => Raised (OtherException "PermissionError")) 0 "ctx_status" ∅
         (mkInvocation [PyStr "ctx"; PyStr "status"; PyStr "--json"] 60
            (Raised (OtherException "PermissionError")))
         ctx_status_known
         (proj2 (list_elem_of_singleton _ _) eq_refl)))))));
      [reflexivity | discriminate | discriminate].
Defined.

(** C1, as stated, fails: the response to a timed-out [ctx_status] call is a
    text of three lines. *)
Lemma failure_response_not_one_line :
  exists s : string,
    snd (exec (fun _ _ _ => Raised TimeoutExpired) 0
           (call_tool repr_opaque "ctx_status" ∅)) =
      Returned [{| type := "text"; text := s |}] /\
    one_line s = false.
Proof.
  exists ("Error: Command timed out after 60 seconds" +:+ newline +:+ newline
          +:+ "Output: ")%string.
  split; reflexivity.
Qed.

(** ** Command lines *)

(** C3. The command line is a function of the tool name and the argument
    bag alone: two runs of the same call invoke the same commands whatever
    the world answers.  For [ctx_search] with a query, the command is [ctx]
    followed by [search], [--json], then [--symbol] exactly when symbol is
    set (truthy), then [--caller] exactly when caller is set, then [-C] and
    [str(context)] when context is set, and the query last; it is run with
    the timeout of 60. *)
Theorem dispatcher_command_line (repr : pyval -> string) :
  (forall (nm : string) (arguments : gmap string pyval)
          (w1 w2 : world) (t1 t2 : nat),
      map inv_cmd (fst (exec w1 t1 (call_tool repr nm arguments))) =
      map inv_cmd (fst (exec w2 t2 (call_tool repr nm arguments)))) /\
  (forall (arguments : gmap string pyval) (q : pyval) (w : world) (t : nat),
      arguments !! "query"%string = Some q ->
      let cmd :=
        [PyStr "ctx"; PyStr "search"; PyStr "--json"]
        ++ (if truthy (dict_get arguments "symbol") then [PyStr "--symbol"] else [])
        ++ (if truthy (dict_get arguments "caller") then [PyStr "--caller"] else [])
        ++ (if truthy (dict_get arguments "context")
            then [PyStr "-C"; PyStr (py_str repr (dict_get arguments "context"))]
            else [])
        ++ [q] in
      fst (exec w t (call_tool repr "ctx_search" arguments)) =
      [mkInvocation cmd 60 (w t cmd 60)]).
Proof.
  split.
  - intros nm arguments w1 w2 t1 t2.
    destruct (exec_call_tool repr nm arguments) as [[res E] | [args E]];
      now rewrite !E.
  - intros arguments q w t Hq cmd. subst cmd.
    rewrite call_tool_search. unfold subscript. rewrite Hq.
    cbn [bind]. rewrite exec_run_respond. reflexivity.
Qed.

Lemma dispatcher_command_line_witness :
  fst (exec (fun _ _ _ => Raised FileNotFoundError) 0
         (call_tool repr_opaque "ctx_search"
            {[ "query"%string := PyStr "parse_args";
               "symbol"%string := PyBool true;
               "caller"%string := PyBool false;
               "context"%string := PyInt 3 ]})) =
  [mkInvocation
     [PyStr "ctx"; PyStr "search"; PyStr "--json"; PyStr "--symbol";
      PyStr "-C"; PyStr "3"; PyStr "parse_args"]
     60 (Raised FileNotFoundError)].
Proof.
  exact (proj2 (dispatcher_command_line repr_opaque)
           {[ "query"%string := PyStr "parse_args";
              "symbol"%string := PyBool true;
              "caller"%string := PyBool false;
              "context"%string := PyInt 3 ]}
           (PyStr "parse_args") (fun _ _ _ => Raised FileNotFoundError) 0%nat eq_refl).
Defined.

(** ** Required keys *)

(** C8. [ctx_search], [ctx_related] and [ctx_schema] declare one required
    key each ([query], [file], [command]) and read it by subscript on every
    call.  When the argument bag has the key the lookup succeeds and its
    value is the last argument of the command handed to [run_ctx]; when the
    key is absent [call_tool] raises [KeyError] for it, before any
    invocation, instead of returning a response. *)
Theorem required_key_lookup (repr : pyval -> string) (nm key : string)
    (arguments : gmap string pyval) :
  (nm, key) ∈ [("ctx_search", "query"); ("ctx_related", "file");
               ("ctx_schema", "command")]%string ->
  declared_required nm = [key] /\
  (forall v, arguments !! key = Some v ->
     exists args, call_tool repr nm arguments =
                  (let* r := run_ctx (args ++ [v]) in Ret (respond r))) /\
  (arguments !! key = None ->
     call_tool repr nm arguments = Raise (KeyError key) /\
     forall (w : world) (t : nat),
       exec w t (call_tool repr nm arguments) = ([], Raises (KeyError key))).
Proof.
  intros H. rewrite !elem_of_cons, elem_of_nil in H.
  destruct H as [[= -> ->] | [[= -> ->] | [[= -> ->] | []]]].
  - split; [reflexivity|]. rewrite call_tool_search. unfold subscript.
    split.
    + intros v ->. cbn [bind]. rewrite !app_assoc. eauto.
    + intros ->. split; [reflexivity|]. intros. reflexivity.
  - split; [reflexivity|]. rewrite call_tool_related. unfold subscript.
    split.
    + intros v ->. cbn [bind]. exists [PyStr "related"; PyStr "--json"]. reflexivity.
    + intros ->. split; [reflexivity|]. intros. reflexivity.
  - split; [reflexivity|]. rewrite call_tool_schema. unfold subscript.
    split.
    + intros v ->. cbn [bind]. exists [PyStr "schema"]. reflexivity.
    + intros ->. split; [reflexivity|]. intros. reflexivity.
Qed.

Lemma required_key_lookup_witness :
  (exists args, call_tool repr_opaque "ctx_related" {[ "file"%string := PyStr "a.py" ]} =
                (let* r := run_ctx (args ++ [PyStr "a.py"]) in Ret (respond r))) /\
  call_tool repr_opaque "ctx_schema" ∅ = Raise (KeyError "command").
Proof.
  split.
  - refine (proj1 (proj2 (required_key_lookup repr_opaque "ctx_related" "file"
                            {[ "file"%string := PyStr "a.py" ]} _)) (PyStr "a.py") eq_refl).
    rewrite !elem_of_cons. tauto.
  - refine (proj1 (proj2 (proj2 (required_key_lookup repr_opaque "ctx_schema" "command"
                            ∅ _)) eq_refl)).
    rewrite !elem_of_cons. tauto.
Defined.

(** [ctx_summarize] also declares a required key, [paths], but reads it with
    a default: without the key the call still reaches [run_ctx]. *)
Remark summarize_paths_defaulted (repr : pyval -> string)
    (arguments : gmap string pyval) :
  declared_required "ctx_summarize" = ["paths"%string] /\
  (arguments !! "paths"%string = None ->
   exists args, call_tool repr "ctx_summarize" arguments =
                (let* r := run_ctx args in Ret (respond r))).
Proof.
  split; [reflexivity|]. intros Hp.
  apply call_tool_admissible; [rewrite known_tool_cases; tauto|].
  unfold arguments_admissible, dict_get_default.
  repeat case_decide; try congruence. now rewrite Hp.
Qed.

(** An exception of [subprocess.run] other than the two caught ones leaves
    [run_ctx], and with it [call_tool], as it is. *)
Remark run_ctx_reraises (w : world) (t : nat) (args : list pyval) (e : exn) :
  w t (PyStr "ctx" :: args) 60 = Raised e ->
  e <> FileNotFoundError -> e <> TimeoutExpired ->
  snd (exec w t (run_ctx args)) = Raises e.
Proof.
  intros Hw H1 H2. simpl. rewrite Hw. destruct e; try contradiction; reflexivity.
Qed.

(** ** Optional arguments *)

Lemma declared_optional_cases (nm key : string) :
  key ∈ declared_optional nm ->
  (nm, key) ∈ [("ctx_map", "path"); ("ctx_map", "depth");
               ("ctx_summarize", "skeleton"); ("ctx_summarize", "depth");
               ("ctx_search", "symbol"); ("ctx_search", "caller");
               ("ctx_search", "context"); ("ctx_diff_context", "git_ref")]%string.
Proof.
  intros H. rewrite !elem_of_cons, elem_of_nil.
  unfold declared_optional, list_tools in H. cbn [find name] in H.
  repeat match type of H with
         | context [String.eqb ?a nm] =>
             destruct (String.eqb_spec a nm) as [<- | _];
             [cbn in H; rewrite ?elem_of_cons, ?elem_of_nil in H;
              intuition (subst; auto) |]
         end.
  now apply elem_of_nil in H.
Qed.

Ltac falsy_key Hf :=
  unfold dict_get, dict_get_default, subscript;
  repeat first
    [ rewrite lookup_insert_eq | rewrite lookup_delete_eq
    | rewrite lookup_insert_ne by discriminate
    | rewrite lookup_delete_ne by discriminate ];
  cbn [from_option id truthy]; rewrite ?Hf; reflexivity.

(** C10. An optional argument whose value is falsy is dropped: the call is
    the same program, command line included, as when the key is absent.
    This holds for every optional key of the catalog, in particular for a
    depth of 0 with [ctx_map] and [ctx_summarize], a context of 0 with
    [ctx_search] and an empty path with [ctx_map]. *)
Theorem falsy_optional_dropped (repr : pyval -> string) :
  (forall (nm key : string) (v : pyval) (arguments : gmap string pyval),
      key ∈ declared_optional nm ->
      truthy v = false ->
      call_tool repr nm (<[key := v]> arguments) =
      call_tool repr nm (delete key arguments)) /\
  (forall arguments : gmap string pyval,
      call_tool repr "ctx_map" (<["depth"%string := PyInt 0]> arguments) =
      call_tool repr "ctx_map" (delete "depth"%string arguments) /\
      call_tool repr "ctx_summarize" (<["depth"%string := PyInt 0]> arguments) =
      call_tool repr "ctx_summarize" (delete "depth"%string arguments) /\
      call_tool repr "ctx_search" (<["context"%string := PyInt 0]> arguments) =
      call_tool repr "ctx_search" (delete "context"%string arguments) /\
      call_tool repr "ctx_map" (<["path"%string := PyStr EmptyString]> arguments) =
      call_tool repr "ctx_map" (delete "path"%string arguments)).
Proof.
  assert (G : forall (nm key : string) (v : pyval) (arguments : gmap string pyval),
             key ∈ declared_optional nm ->
             truthy v = false ->
             call_tool repr nm (<[key := v]> arguments) =
             call_tool repr nm (delete key arguments)).
  { intros nm key v arguments H Hf. apply declared_optional_cases in H.
    rewrite !elem_of_cons, elem_of_nil in H.
    repeat (destruct H as [[= -> ->] | H]); [..|contradiction].
    - rewrite !call_tool_map. falsy_key Hf.
    - rewrite !call_tool_map. falsy_key Hf.
    - rewrite !call_tool_summarize. falsy_key Hf.
    - rewrite !call_tool_summarize. falsy_key Hf.
    - rewrite !call_tool_search. falsy_key Hf.
    - rewrite !call_tool_search. falsy_key Hf.
    - rewrite !call_tool_search. falsy_key Hf.
    - rewrite !call_tool_diff_context. falsy_key Hf. }
  split; [exact G|].
  intros arguments. repeat split; apply G; try reflexivity;
    cbn; rewrite ?elem_of_cons; tauto.
Qed.

Lemma falsy_optional_dropped_witness :
  call_tool repr_opaque "ctx_diff_context" (<["git_ref"%string := PyNone]> ∅) =
  call_tool repr_opaque "ctx_diff_context" (delete "git_ref"%string ∅).
Proof.
  refine (proj1 (falsy_optional_dropped repr_opaque)
            "ctx_diff_context" "git_ref" PyNone ∅ _ eq_refl).
  cbn. rewrite elem_of_cons. tauto.
Defined.

(** ** No retry *)

(** C7, as the code has it.  No call makes more than one subprocess
    invocation.  A call of a known tool makes exactly one, with the timeout
    of 60 and whatever its outcome, when its argument bag is admissible, and
    in particular whenever it returns a response; with any other argument
    bag it raises while building the command line and makes none. *)
Theorem single_invocation (repr : pyval -> string) (w : world) (t : nat)
    (nm : string) (arguments : gmap string pyval) :
  nm ∈ tool_names ->
  let log := fst (exec w t (call_tool repr nm arguments)) in
  let res := snd (exec w t (call_tool repr nm arguments)) in
  (length log <= 1)%nat /\
  (arguments_admissible nm arguments = true ->
   exists args, log = [mkInvocation (PyStr "ctx" :: args) 60
                         (w t (PyStr "ctx" :: args) 60)]) /\
  (arguments_admissible nm arguments = false ->
   log = [] /\ exists e, res = Raises e) /\
  (forall resp, res = Returned resp -> length log = 1%nat).
Proof.
  intros Hk log res. subst log res.
  destruct (arguments_admissible nm arguments) eqn:Hadm.
  - destruct (call_tool_admissible repr nm arguments Hk Hadm) as [args E].
    rewrite E, exec_run_respond. simpl.
    repeat split; try discriminate; eauto.
  - destruct (call_tool_inadmissible repr nm arguments Hk Hadm) as [e E].
    rewrite E. simpl.
    repeat split; try discriminate; eauto.
Qed.

Lemma single_invocation_witness :
  length (fst (exec (fun _ _ _ => Raised TimeoutExpired) 0
                 (call_tool repr_opaque "ctx_search"
                    {[ "query"%string := PyStr "main" ]}))) = 1%nat.
Proof.
  destruct (proj1 (proj2 (single_invocation repr_opaque
                            (fun _ _ _ => Raised TimeoutExpired) 0 "ctx_search"
                            {[ "query"%string := PyStr "main" ]} ctx_search_known)))
    as [args E].
  - reflexivity.
  - rewrite E. reflexivity.
Defined.

(** C7, as stated, fails: [ctx_search] without a query is a call with a
    known tool name that never reaches the backend. *)
Lemma known_tool_without_invocation :
  "ctx_search"%string ∈ tool_names /\
  exec (fun _ _ _ => Completed (mkCompleted "[]" EmptyString 0)) 0
       (call_tool repr_opaque "ctx_search" ∅) =
  ([], Raises (KeyError "query")).
Proof.
  split; [exact ctx_search_known | reflexivity].
Qed.

(** ** Statelessness *)

(** Two runs of one call in worlds that answer alike end alike and invoke
    alike. *)
Lemma exec_call_tool_agree (repr : pyval -> string) (nm : string)
    (arguments : gmap string pyval) (w1 w2 : world) (t1 t2 : nat) :
  (forall cmd timeout, w1 t1 cmd timeout = w2 t2 cmd timeout) ->
  exec w1 t1 (call_tool repr nm arguments) =
  exec w2 t2 (call_tool repr nm arguments).
Proof.
  intros Hw.
  destruct (exec_call_tool repr nm arguments) as [[res E] | [args E]];
    rewrite !E; [reflexivity|]. now rewrite Hw.
Qed.

(** A program that does not touch the store leaves it as it is. *)
Lemma run_lift {A : Type} (w : world) (t : nat) (h : gmap nat Store.object) (p : prog A) :
  Store.run w t h (Store.lift p) = (h, fst (exec w t p), snd (exec w t p)).
Proof.
  revert t. induction p as [a | e | cmd timeout k IH]; intros t; simpl; try reflexivity.
  rewrite IH. now destruct (exec w (S t) (k (w t cmd timeout))).
Qed.

(** The shared tail over the store: one invocation, the store untouched. *)
Lemma run_tail (w : world) (t : nat) (h : gmap nat Store.object) (args : list pyval) :
  Store.run w t h (Store.bind (Store.lift (run_ctx args)) (fun r => Store.Done (respond r))) =
  (h, [mkInvocation (PyStr "ctx" :: args) 60 (w t (PyStr "ctx" :: args) 60)],
   reply (w t (PyStr "ctx" :: args) 60)).
Proof.
  unfold reply. simpl.
  destruct (w t (PyStr "ctx" :: args) 60) as [r | []]; reflexivity.
Qed.


(** A new object never takes the location of an object in the store. *)
Lemma fresh_not_held (h : gmap nat Store.object) (l : nat) (o : Store.object) :
  h !! l = Some o -> fresh (dom h) <> l.
Proof.
  intros Hl E. pose proof (is_fresh (dom h)) as Hf. rewrite E in Hf.
  apply Hf. apply elem_of_dom. eauto.
Qed.

Ltac store_step Ha :=
  first
    [ rewrite lookup_insert_eq
    | rewrite lookup_insert_ne by exact (fresh_not_held _ _ _ Ha)
    | rewrite Ha
    | rewrite run_tail
    | match goal with
      | E : _ !! _ = _ |- _ => rewrite E
      | E : truthy _ = _ |- _ => rewrite E
      end
    | match goal with
      | |- context [truthy ?v] => is_var v; destruct (truthy v) eqn:?
      end ];
  cbn [Store.run Store.bind Store.new_list Store.append Store.extend Store.unpack
       Store.dict_get Store.dict_get_default Store.subscript Store.lift
       from_option id truthy py_iter].

Ltac split_bag :=
  unfold dict_get, dict_get_default, subscript;
  repeat match goal with
         | |- context [?m !! ?k] =>
             lazymatch type of m with
             | gmap string pyval => destruct (m !! k) as [?|] eqn:?
             end
         end;
  cbn [from_option id truthy bind];
  repeat match goal with
         | |- context [truthy ?v] => is_var v; destruct (truthy v) eqn:?
         end.

Ltac store_run Ha :=
  unfold Store.call_tool; repeat case_decide; try congruence;
  cbn [Store.run Store.bind Store.new_list Store.append Store.extend Store.unpack
       Store.dict_get Store.dict_get_default Store.subscript Store.lift
       from_option id truthy py_iter];
  repeat store_step Ha.

Ltac framed Ha :=
  eexists; split;
  [ reflexivity
  | let l := fresh "l" in let o := fresh "o" in let Hl := fresh "Hl" in
    intros l o Hl;
    rewrite ?lookup_insert_ne by exact (fresh_not_held _ _ _ Hl);
    exact Hl ].

(** A call over the store invokes and ends as the function of the bag's
    contents does, and leaves every object of the store as it was. *)
Lemma run_call_tool (repr : pyval -> string) (nm : string) (a : nat)
    (arguments : gmap string pyval) (h : gmap nat Store.object)
    (w : world) (t : nat) :
  h !! a = Some (Store.DictObject arguments) ->
  exists h',
    Store.run w t h (Store.call_tool repr nm a) =
      (h', fst (exec w t (call_tool repr nm arguments)),
           snd (exec w t (call_tool repr nm arguments))) /\
    (forall l o, h !! l = Some o -> h' !! l = Some o).
Proof.
  intros Ha. destruct (decide (nm ∈ tool_names)) as [Hk | Hk].
  - known_tool Hk.
    + rewrite call_tool_status, exec_run_respond. store_run Ha. framed Ha.
    + rewrite call_tool_map. split_bag; rewrite exec_run_respond; store_run Ha; framed Ha.
    + rewrite call_tool_summarize. split_bag.
      all: try match goal with |- context [py_iter ?v] => is_var v; destruct v end.
      all: cbn [py_iter bind]; rewrite ?exec_run_respond; store_run Ha; framed Ha.
    + rewrite call_tool_search. split_bag; rewrite ?exec_run_respond; store_run Ha; framed Ha.
    + rewrite call_tool_related. split_bag; rewrite ?exec_run_respond; store_run Ha; framed Ha.
    + rewrite call_tool_diff_context. split_bag; rewrite exec_run_respond; store_run Ha; framed Ha.
    + rewrite call_tool_schema. split_bag; rewrite ?exec_run_respond; store_run Ha; framed Ha.
    + rewrite call_tool_version, exec_run_respond. store_run Ha. framed Ha.
  - rewrite call_tool_unknown by assumption.
    rewrite known_tool_cases in Hk.
    unfold Store.call_tool. repeat case_decide; try tauto.
    framed Ha.
Qed.

(** C6. [call_tool] keeps no state.  It mutates one object only, the [args]
    list it has just created: every object that was in the store before the
    call, the argument bag and the objects of the module included, is the
    same after it, however the call ends.  Two invocations with the same tool
    name, argument bags with the same contents and backends that answer
    alike make the same subprocess invocations and give the same response,
    whatever else the two stores hold.  So a call made after another one
    behaves as if the other had not been made. *)
Theorem stateless_calls (repr : pyval -> string) :
  (forall (nm : string) (a : nat) (arguments : gmap string pyval)
          (h : gmap nat Store.object) (w : world) (t : nat)
          (l : nat) (o : Store.object),
      h !! a = Some (Store.DictObject arguments) ->
      h !! l = Some o ->
      fst (fst (Store.run w t h (Store.call_tool repr nm a))) !! l = Some o) /\
  (forall (nm : string) (a1 a2 : nat) (arguments : gmap string pyval)
          (h1 h2 : gmap nat Store.object) (w1 w2 : world) (t1 t2 : nat),
      h1 !! a1 = Some (Store.DictObject arguments) ->
      h2 !! a2 = Some (Store.DictObject arguments) ->
      (forall cmd timeout, w1 t1 cmd timeout = w2 t2 cmd timeout) ->
      snd (fst (Store.run w1 t1 h1 (Store.call_tool repr nm a1))) =
      snd (fst (Store.run w2 t2 h2 (Store.call_tool repr nm a2))) /\
      snd (Store.run w1 t1 h1 (Store.call_tool repr nm a1)) =
      snd (Store.run w2 t2 h2 (Store.call_tool repr nm a2))) /\
  (forall (nm1 nm2 : string) (a1 a2 : nat) (arguments1 arguments2 : gmap string pyval)
          (h : gmap nat Store.object) (w : world) (t1 t2 : nat),
      h !! a1 = Some (Store.DictObject arguments1) ->
      h !! a2 = Some (Store.DictObject arguments2) ->
      let h' := fst (fst (Store.run w t1 h (Store.call_tool repr nm1 a1))) in
      snd (fst (Store.run w t2 h' (Store.call_tool repr nm2 a2))) =
      snd (fst (Store.run w t2 h (Store.call_tool repr nm2 a2))) /\
      snd (Store.run w t2 h' (Store.call_tool repr nm2 a2)) =
      snd (Store.run w t2 h (Store.call_tool repr nm2 a2))) /\
  (forall (nm : string) (a : nat) (arguments : gmap string pyval)
          (h : gmap nat Store.object) (w : world) (t : nat),
      h !! a = Some (Store.DictObject arguments) ->
      (snd (fst (Store.run w t h (Store.call_tool repr nm a))),
       snd (Store.run w t h (Store.call_tool repr nm a))) =
      exec w t (call_tool repr nm arguments)).
Proof.
  assert (Frame : forall nm a arguments (h : gmap nat Store.object) w t l o,
             h !! a = Some (Store.DictObject arguments) ->
             h !! l = Some o ->
             fst (fst (Store.run w t h (Store.call_tool repr nm a))) !! l = Some o).
  { intros nm a arguments h w t l o Ha Hl.
    destruct (run_call_tool repr nm a arguments h w t Ha) as (h' & E & F).
    rewrite E. cbn [fst]. now apply F. }
  assert (Same : forall nm a1 a2 arguments (h1 h2 : gmap nat Store.object)
                        w1 w2 t1 t2,
             h1 !! a1 = Some (Store.DictObject arguments) ->
             h2 !! a2 = Some (Store.DictObject arguments) ->
             (forall cmd timeout, w1 t1 cmd timeout = w2 t2 cmd timeout) ->
             snd (fst (Store.run w1 t1 h1 (Store.call_tool repr nm a1))) =
             snd (fst (Store.run w2 t2 h2 (Store.call_tool repr nm a2))) /\
             snd (Store.run w1 t1 h1 (Store.call_tool repr nm a1)) =
             snd (Store.run w2 t2 h2 (Store.call_tool repr nm a2))).
  { intros nm a1 a2 arguments h1 h2 w1 w2 t1 t2 H1 H2 Hw.
    destruct (run_call_tool repr nm a1 arguments h1 w1 t1 H1) as (h1' & E1 & _).
    destruct (run_call_tool repr nm a2 arguments h2 w2 t2 H2) as (h2' & E2 & _).
    rewrite E1, E2. cbn [fst snd].
    now rewrite (exec_call_tool_agree repr nm arguments w1 w2 t1 t2 Hw). }
  split; [exact Frame|]. split; [exact Same|]. split.
  - intros nm1 nm2 a1 a2 arguments1 arguments2 h w t1 t2 H1 H2 h'.
    apply (Same nm2 a2 a2 arguments2); [|exact H2|reflexivity].
    subst h'. now apply (Frame nm1 a1 arguments1).
  - intros nm a arguments h w t Ha.
    destruct (run_call_tool repr nm a arguments h w t Ha) as (h' & E & _).
    rewrite E. cbn [fst snd]. now destruct (exec w t _).
Qed.

Lemma stateless_calls_witness :
  snd (Store.run (fun _ _ _ => Completed (mkCompleted "{}" EmptyString 0)) 1
         (fst (fst (Store.run (fun _ _ _ => Completed (mkCompleted "{}" EmptyString 0)) 0
                      {[ 0%nat := Store.DictObject {[ "query"%string := PyStr "main" ]};
                         1%nat := Store.DictObject {[ "depth"%string := PyInt 2 ]} ]}
                      (Store.call_tool repr_opaque "ctx_search" 0))))
         (Store.call_tool repr_opaque "ctx_map" 1)) =
  snd (Store.run (fun _ _ _ => Completed (mkCompleted "{}" EmptyString 0)) 1
         {[ 0%nat := Store.DictObject {[ "query"%string := PyStr "main" ]};
            1%nat := Store.DictObject {[ "depth"%string := PyInt 2 ]} ]}
         (Store.call_tool repr_opaque "ctx_map" 1)).
Proof.
  refine (proj2 (proj1 (proj2 (proj2 (stateless_calls repr_opaque)))
                   "ctx_search" "ctx_map" 0%nat 1%nat
                   {[ "query"%string := PyStr "main" ]}
                   {[ "depth"%string := PyInt 2 ]}
                   {[ 0%nat := Store.DictObject {[ "query"%string := PyStr "main" ]};
                      1%nat := Store.DictObject {[ "depth"%string := PyInt 2 ]} ]}
                   (fun _ _ _ => Completed (mkCompleted "{}" EmptyString 0))
                   0%nat 1%nat _ _)); reflexivity.
Defined.

(** * Further properties of the dispatcher *)

(** ** Command lines of the other tools *)

(** X1. [ctx_map] never raises on its own: whatever the argument bag it
    makes one invocation, of [ctx map --json], followed by the path value as
    it is when it is truthy, then by [--depth] and [str(depth)] when depth
    is truthy; the path comes before the depth. *)
Theorem map_command_line (repr : pyval -> string) (w : world) (t : nat)
    (arguments : gmap string pyval) :
  let cmd :=
    [PyStr "ctx"; PyStr "map"; PyStr "--json"]
    ++ (if truthy (dict_get arguments "path") then [dict_get arguments "path"] else [])
    ++ (if truthy (dict_get arguments "depth")
        then [PyStr "--depth"; PyStr (py_str repr (dict_get arguments "depth"))]
        else []) in
  exec w t (call_tool repr "ctx_map" arguments) =
  ([mkInvocation cmd 60 (w t cmd 60)], reply (w t cmd 60)).
Proof.
  intros cmd. subst cmd. rewrite call_tool_map. apply exec_run_respond.
Qed.

(** X2. [ctx_diff_context] never raises on its own: it makes one invocation,
    of [ctx diff-context --json], followed by the git ref as it is when it
    is truthy. *)
Theorem diff_context_command_line (repr : pyval -> string) (w : world) (t : nat)
    (arguments : gmap string pyval) :
  let cmd :=
    [PyStr "ctx"; PyStr "diff-context"; PyStr "--json"]
    ++ (if truthy (dict_get arguments "git_ref")
        then [dict_get arguments "git_ref"] else []) in
  exec w t (call_tool repr "ctx_diff_context" arguments) =
  ([mkInvocation cmd 60 (w t cmd 60)], reply (w t cmd 60)).
Proof.
  intros cmd. subst cmd. rewrite call_tool_diff_context. apply exec_run_respond.
Qed.

(** X3. When paths is a list, or is absent, [ctx_summarize] makes one
    invocation, of [ctx summarize --json], then [--skeleton] when skeleton is
    truthy, then [--depth] and [str(depth)] when depth is truthy, then the
    items of paths, in order and as they are. *)
Theorem summarize_command_line (repr : pyval -> string) (w : world) (t : nat)
    (arguments : gmap string pyval) (items : list pyval) :
  dict_get_default arguments "paths" (PyList []) = PyList items ->
  let cmd :=
    [PyStr "ctx"; PyStr "summarize"; PyStr "--json"]
    ++ (if truthy (dict_get arguments "skeleton") then [PyStr "--skeleton"] else [])
    ++ (if truthy (dict_get arguments "depth")
        then [PyStr "--depth"; PyStr (py_str repr (dict_get arguments "depth"))]
        else [])
    ++ items in
  exec w t (call_tool repr "ctx_summarize" arguments) =
  ([mkInvocation cmd 60 (w t cmd 60)], reply (w t cmd 60)).
Proof.
  intros Hp cmd. subst cmd. rewrite call_tool_summarize, Hp.
  cbn [py_iter bind]. apply exec_run_respond.
Qed.

Lemma summarize_command_line_witness :
  fst (exec (fun _ _ _ => Raised TimeoutExpired) 0
         (call_tool repr_opaque "ctx_summarize"
            {[ "paths"%string := PyList [PyStr "src"; PyStr "docs/a.md"];
               "skeleton"%string := PyBool true;
               "depth"%string := PyInt (-2) ]})) =
  [mkInvocation
     [PyStr "ctx"; PyStr "summarize"; PyStr "--json"; PyStr "--skeleton";
      PyStr "--depth"; PyStr "-2"; PyStr "src"; PyStr "docs/a.md"]
     60 (Raised TimeoutExpired)].
Proof.
  exact (f_equal fst
           (summarize_command_line repr_opaque (fun _ _ _ => Raised TimeoutExpired) 0
              {[ "paths"%string := PyList [PyStr "src"; PyStr "docs/a.md"];
                 "skeleton"%string := PyBool true;
                 "depth"%string := PyInt (-2) ]}
              [PyStr "src"; PyStr "docs/a.md"] eq_refl)).
Defined.

Lemma chars_length (s : string) : length (chars s) = String.length s.
Proof. induction s as [|c s IH]; simpl; congruence. Qed.

Lemma chars_join (s : string) : join_strs (chars s) = s.
Proof.
  induction s as [|c s IH]; [reflexivity|].
  cbn [chars join_strs]. rewrite IH. reflexivity.
Qed.

Lemma chars_single (s : string) :
  Forall (fun v => exists c, v = PyStr (String c EmptyString)) (chars s).
Proof. induction s as [|c s IH]; simpl; constructor; eauto. Qed.

(** X4. When paths is a string of ASCII characters, [ctx_summarize] passes
    it one character per argument: the command ends with as many arguments
    as the string has characters, each a string of one character, and their
    concatenation is the string. *)
Theorem summarize_string_paths (repr : pyval -> string) (w : world) (t : nat)
    (arguments : gmap string pyval) (s : string) :
  arguments !! "paths"%string = Some (PyStr s) ->
  ascii_only s = true ->
  exists options tail,
    options =
      [PyStr "ctx"; PyStr "summarize"; PyStr "--json"]
      ++ (if truthy (dict_get arguments "skeleton") then [PyStr "--skeleton"] else [])
      ++ (if truthy (dict_get arguments "depth")
          then [PyStr "--depth"; PyStr (py_str repr (dict_get arguments "depth"))]
          else []) /\
    map inv_cmd (fst (exec w t (call_tool repr "ctx_summarize" arguments))) =
      [options ++ tail] /\
    length tail = String.length s /\
    Forall (fun v => exists c, v = PyStr (String c EmptyString)) tail /\
    join_strs tail = s.
Proof.
  intros Hp _. eexists. exists (chars s). split; [reflexivity|].
  split; [|split; [apply chars_length | split; [apply chars_single | apply chars_join]]].
  rewrite call_tool_summarize. unfold dict_get_default at 1. rewrite Hp.
  cbn [from_option id py_iter bind]. rewrite exec_run_respond.
  cbn [fst map inv_cmd]. now rewrite <- !app_assoc.
Qed.

Lemma summarize_string_paths_witness :
  exists options tail,
    options =
      [PyStr "ctx"; PyStr "summarize"; PyStr "--json"]
      ++ (if truthy (dict_get {[ "paths"%string := PyStr "src" ]} "skeleton") then [PyStr "--skeleton"] else [])
      ++ (if truthy (dict_get {[ "paths"%string := PyStr "src" ]} "depth")
          then [PyStr "--depth"; PyStr (py_str repr_opaque (dict_get {[ "paths"%string := PyStr "src" ]} "depth"))]
          else []) /\
    map inv_cmd
      (fst (exec (fun _ _ _ => Raised TimeoutExpired) 0
              (call_tool repr_opaque "ctx_summarize" {[ "paths"%string := PyStr "src" ]}))) = [options ++ tail] /\
    length tail = String.length "src" /\
    Forall (fun v => exists c, v = PyStr (String c EmptyString)) tail /\
    join_strs tail = "src"%string.
Proof.
  apply (summarize_string_paths repr_opaque (fun _ _ _ => Raised TimeoutExpired) 0
           {[ "paths"%string := PyStr "src" ]} "src"); reflexivity.
Defined.

(** X5. When paths is present and is [None], a boolean or an integer,
    [ctx_summarize] raises [TypeError] and makes no invocation. *)
Theorem summarize_paths_not_iterable (repr : pyval -> string) (w : world) (t : nat)
    (arguments : gmap string pyval) (v : pyval) :
  arguments !! "paths"%string = Some v ->
  iterable v = false ->
  exists msg, exec w t (call_tool repr "ctx_summarize" arguments) =
              ([], Raises (TypeError msg)).
Proof.
  intros Hp Hv. rewrite call_tool_summarize. unfold dict_get_default at 1.
  rewrite Hp. destruct v; try discriminate; simpl; eauto.
Qed.

Lemma summarize_paths_not_iterable_witness :
  exists msg,
    exec (fun _ _ _ => Completed (mkCompleted "{}" EmptyString 0)) 0
         (call_tool repr_opaque "ctx_summarize" {[ "paths"%string := PyNone ]}) =
    ([], Raises (TypeError msg)).
Proof.
  apply (summarize_paths_not_iterable repr_opaque
           (fun _ _ _ => Completed (mkCompleted "{}" EmptyString 0)) 0
           {[ "paths"%string := PyNone ]} PyNone); reflexivity.
Defined.

(** X6. [ctx_status] and [ctx_version] do not read the argument bag: whatever
    it holds they make one invocation, of [ctx status --json] and of
    [ctx version --json]. *)
Theorem status_version_ignore_arguments (repr : pyval -> string) (w : world)
    (t : nat) (arguments : gmap string pyval) :
  fst (exec w t (call_tool repr "ctx_status" arguments)) =
    [mkInvocation [PyStr "ctx"; PyStr "status"; PyStr "--json"] 60
       (w t [PyStr "ctx"; PyStr "status"; PyStr "--json"] 60)] /\
  fst (exec w t (call_tool repr "ctx_version" arguments)) =
    [mkInvocation [PyStr "ctx"; PyStr "version"; PyStr "--json"] 60
       (w t [PyStr "ctx"; PyStr "version"; PyStr "--json"] 60)] /\
  call_tool repr "ctx_status" arguments = call_tool repr "ctx_status" ∅ /\
  call_tool repr "ctx_version" arguments = call_tool repr "ctx_version" ∅.
Proof.
  rewrite call_tool_status, call_tool_version, !exec_run_respond.
  repeat split; reflexivity.
Qed.

(** X7. With its key present, [ctx_related] invokes [ctx related --json]
    followed by the file value, and [ctx_schema] invokes [ctx schema]
    followed by the command value, without [--json]; the value is passed as
    it is, whatever it holds. *)
Theorem related_schema_command_lines (repr : pyval -> string) (w : world)
    (t : nat) (arguments : gmap string pyval) (v : pyval) :
  (arguments !! "file"%string = Some v ->
   fst (exec w t (call_tool repr "ctx_related" arguments)) =
     [mkInvocation [PyStr "ctx"; PyStr "related"; PyStr "--json"; v] 60
        (w t [PyStr "ctx"; PyStr "related"; PyStr "--json"; v] 60)]) /\
  (arguments !! "command"%string = Some v ->
   fst (exec w t (call_tool repr "ctx_schema" arguments)) =
     [mkInvocation [PyStr "ctx"; PyStr "schema"; v] 60
        (w t [PyStr "ctx"; PyStr "schema"; v] 60)]).
Proof.
  split; intros Hv.
  - rewrite call_tool_related. unfold subscript. rewrite Hv. cbn [bind].
    now rewrite exec_run_respond.
  - rewrite call_tool_schema. unfold subscript. rewrite Hv. cbn [bind].
    now rewrite exec_run_respond.
Qed.

Lemma related_schema_command_lines_witness :
  fst (exec (fun _ _ _ => Raised FileNotFoundError) 0
         (call_tool repr_opaque "ctx_related" {[ "file"%string := PyStr "--help" ]})) =
    [mkInvocation [PyStr "ctx"; PyStr "related"; PyStr "--json"; PyStr "--help"] 60
       (Raised FileNotFoundError)] /\
  fst (exec (fun _ _ _ => Raised FileNotFoundError) 0
         (call_tool repr_opaque "ctx_schema" {[ "command"%string := PyInt 7 ]})) =
    [mkInvocation [PyStr "ctx"; PyStr "schema"; PyInt 7] 60 (Raised FileNotFoundError)].
Proof.
  split.
  - apply (proj1 (related_schema_command_lines repr_opaque
                    (fun _ _ _ => Raised FileNotFoundError) 0
                    {[ "file"%string := PyStr "--help" ]} (PyStr "--help"))).
    reflexivity.
  - apply (proj2 (related_schema_command_lines repr_opaque
                    (fun _ _ _ => Raised FileNotFoundError) 0
                    {[ "command"%string := PyInt 7 ]} (PyInt 7))).
    reflexivity.
Defined.

(** ** Shape of every invocation *)

(** X8. Every subprocess invocation a known tool makes is [ctx], then the
    subcommand the tool name stands for (the name without [ctx_], with
    hyphens for underscores), with the timeout of 60.  For every tool but
    [ctx_schema] the next argument is [--json]; [ctx_schema] passes exactly
    one more argument, the command value. *)
Theorem invocation_shape (repr : pyval -> string) (w : world) (t : nat)
    (nm : string) (arguments : gmap string pyval) (inv : invocation) :
  nm ∈ tool_names ->
  inv ∈ fst (exec w t (call_tool repr nm arguments)) ->
  inv_timeout inv = 60 /\
  exists rest,
    inv_cmd inv = PyStr "ctx" :: PyStr (subcommand nm) :: rest /\
    (nm <> "ctx_schema"%string -> exists rest', rest = PyStr "--json" :: rest') /\
    (nm = "ctx_schema"%string -> arguments !! "command"%string = head rest /\
                                 length rest = 1%nat).
Proof.
  intros Hk Hin. known_tool Hk.
  - rewrite call_tool_status, exec_run_respond in Hin.
    apply list_elem_of_singleton in Hin. subst inv.
    split; [reflexivity|]. eexists. split; [reflexivity|].
    split; [eauto | discriminate].
  - rewrite call_tool_map, exec_run_respond in Hin.
    apply list_elem_of_singleton in Hin. subst inv.
    split; [reflexivity|]. eexists. split; [reflexivity|].
    split; [eauto | discriminate].
  - rewrite call_tool_summarize in Hin.
    destruct (py_iter _) as [paths | e | ? ? ?] eqn:E; cbn [bind] in Hin.
    + rewrite exec_run_respond in Hin.
      apply list_elem_of_singleton in Hin. subst inv.
      split; [reflexivity|]. eexists. split; [reflexivity|].
      split; [eauto | discriminate].
    + now apply elem_of_nil in Hin.
    + destruct (dict_get_default _ _ _); discriminate.
  - rewrite call_tool_search in Hin. unfold subscript in Hin.
    destruct (arguments !! "query"%string) as [q|]; cbn [bind] in Hin.
    + rewrite exec_run_respond in Hin.
      apply list_elem_of_singleton in Hin. subst inv.
      split; [reflexivity|]. eexists. split; [reflexivity|].
      split; [eauto | discriminate].
    + now apply elem_of_nil in Hin.
  - rewrite call_tool_related in Hin. unfold subscript in Hin.
    destruct (arguments !! "file"%string) as [q|]; cbn [bind] in Hin.
    + rewrite exec_run_respond in Hin.
      apply list_elem_of_singleton in Hin. subst inv.
      split; [reflexivity|]. eexists. split; [reflexivity|].
      split; [eauto | discriminate].
    + now apply elem_of_nil in Hin.
  - rewrite call_tool_diff_context, exec_run_respond in Hin.
    apply list_elem_of_singleton in Hin. subst inv.
    split; [reflexivity|]. eexists. split; [reflexivity|].
    split; [eauto | discriminate].
  - rewrite call_tool_schema in Hin. unfold subscript in Hin.
    destruct (arguments !! "command"%string) as [q|]; cbn [bind] in Hin.
    + rewrite exec_run_respond in Hin.
      apply list_elem_of_singleton in Hin. subst inv.
      split; [reflexivity|]. eexists. split; [reflexivity|].
      split; [congruence|]. intros _. split; reflexivity.
    + now apply elem_of_nil in Hin.
  - rewrite call_tool_version, exec_run_respond in Hin.
    apply list_elem_of_singleton in Hin. subst inv.
    split; [reflexivity|]. eexists. split; [reflexivity|].
    split; [eauto | discriminate].
Qed.

Lemma invocation_shape_witness :
  exists rest,
    [PyStr "ctx"; PyStr "diff-context"; PyStr "--json"; PyStr "HEAD~1"] =
    PyStr "ctx" :: PyStr (subcommand "ctx_diff_context") :: rest.
Proof.
  destruct (invocation_shape repr_opaque (fun _ _ _ => Raised TimeoutExpired) 0
              "ctx_diff_context" {[ "git_ref"%string := PyStr "HEAD~1" ]}
              (mkInvocation
                 [PyStr "ctx"; PyStr "diff-context"; PyStr "--json"; PyStr "HEAD~1"]
                 60 (Raised TimeoutExpired)))
    as [_ (rest & E & _)].
  - rewrite known_tool_cases. tauto.
  - apply list_elem_of_singleton. reflexivity.
  - exists rest. exact E.
Defined.

(** ** Keys the dispatcher reads *)

Ltac other_keys H :=
  cbn in H; rewrite ?not_elem_of_cons in H;
  unfold dict_get, dict_get_default, subscript;
  repeat first
    [ rewrite lookup_insert_ne by (intros ->; tauto)
    | rewrite lookup_delete_ne by (intros ->; tauto) ];
  reflexivity.

(** X9. [call_tool] reads no key but the properties the catalog declares for
    the tool: setting or removing any other key of the argument bag leaves
    the call as it is, command line and response included.  For a name
    outside the catalog this is every key. *)
Theorem undeclared_keys_ignored (repr : pyval -> string) (nm key : string)
    (v : pyval) (arguments : gmap string pyval) :
  key ∉ declared_properties nm ->
  call_tool repr nm (<[key := v]> arguments) = call_tool repr nm arguments /\
  call_tool repr nm (delete key arguments) = call_tool repr nm arguments.
Proof.
  intros H. destruct (decide (nm ∈ tool_names)) as [Hk | Hk].
  - known_tool Hk.
    + now rewrite !call_tool_status.
    + rewrite !call_tool_map. split; other_keys H.
    + rewrite !call_tool_summarize. split; other_keys H.
    + rewrite !call_tool_search. split; other_keys H.
    + rewrite !call_tool_related. split; other_keys H.
    + rewrite !call_tool_diff_context. split; other_keys H.
    + rewrite !call_tool_schema. split; other_keys H.
    + now rewrite !call_tool_version.
  - now rewrite !call_tool_unknown by assumption.
Qed.

Lemma undeclared_keys_ignored_witness :
  call_tool repr_opaque "ctx_map"
    (<["verbose"%string := PyBool true]> {[ "depth"%string := PyInt 2 ]}) =
  call_tool repr_opaque "ctx_map" {[ "depth"%string := PyInt 2 ]}.
Proof.
  apply (undeclared_keys_ignored repr_opaque "ctx_map" "verbose" (PyBool true)
           {[ "depth"%string := PyInt 2 ]}).
  cbn. rewrite !not_elem_of_cons. repeat split; try discriminate.
  apply not_elem_of_nil.
Defined.

(** ** Ways a call ends *)

Lemma reply_raises (o : outcome) (e : exn) :
  reply o = Raises e ->
  o = Raised e /\ e <> FileNotFoundError /\ e <> TimeoutExpired.
Proof.
  unfold reply. simpl. destruct o as [r | []]; simpl; intros [= <-];
    repeat split; discriminate.
Qed.

Lemma reply_returned (o : outcome) (resp : list TextContent) :
  reply o = Returned resp -> exists s, resp = [text_content s].
Proof.
  unfold reply. simpl. destruct o as [r | []]; simpl; try discriminate.
  - unfold respond. destruct (negb _); intros [= <-]; eauto.
  - intros [= <-]. eauto.
  - intros [= <-]. eauto.
Qed.

(** The exceptions [call_tool] raises by itself. *)
Lemma call_tool_raise_kind (repr : pyval -> string) (nm : string)
    (arguments : gmap string pyval) (e : exn) :
  call_tool repr nm arguments = Raise e ->
  (exists key, e = KeyError key /\ declared_required nm = [key] /\
               arguments !! key = None /\ nm <> "ctx_summarize"%string) \/
  (exists msg, e = TypeError msg /\ nm = "ctx_summarize"%string /\
               iterable (dict_get_default arguments "paths" (PyList [])) = false).
Proof.
  intros E. destruct (decide (nm ∈ tool_names)) as [Hk | Hk].
  - known_tool Hk.
    + rewrite call_tool_status in E. discriminate.
    + rewrite call_tool_map in E. discriminate.
    + rewrite call_tool_summarize in E. right.
      destruct (dict_get_default arguments "paths" (PyList []));
        try discriminate; injection E as <-; eauto.
    + rewrite call_tool_search in E. unfold subscript in E. left.
      destruct (arguments !! "query"%string) eqn:Hq; [discriminate|].
      injection E as <-. exists "query"%string. repeat split; auto; discriminate.
    + rewrite call_tool_related in E. unfold subscript in E. left.
      destruct (arguments !! "file"%string) eqn:Hq; [discriminate|].
      injection E as <-. exists "file"%string. repeat split; auto; discriminate.
    + rewrite call_tool_diff_context in E. discriminate.
    + rewrite call_tool_schema in E. unfold subscript in E. left.
      destruct (arguments !! "command"%string) eqn:Hq; [discriminate|].
      injection E as <-. exists "command"%string. repeat split; auto; discriminate.
    + rewrite call_tool_version in E. discriminate.
  - rewrite call_tool_unknown in E by assumption. discriminate.
Qed.

(** Where an exception that ends a call comes from. *)
Lemma raised_exception_origin (repr : pyval -> string) (w : world) (t : nat)
    (nm : string) (arguments : gmap string pyval) (e : exn) :
  snd (exec w t (call_tool repr nm arguments)) = Raises e ->
  (fst (exec w t (call_tool repr nm arguments)) = [] /\
   ((exists key, e = KeyError key /\ declared_required nm = [key] /\
                 arguments !! key = None /\ nm <> "ctx_summarize"%string) \/
    (exists msg, e = TypeError msg /\ nm = "ctx_summarize"%string /\
                 iterable (dict_get_default arguments "paths" (PyList [])) = false))) \/
  (exists inv, fst (exec w t (call_tool repr nm arguments)) = [inv] /\
               inv_outcome inv = Raised e /\
               e <> FileNotFoundError /\ e <> TimeoutExpired).
Proof.
  intros He. destruct (decide (nm ∈ tool_names)) as [Hk | Hk].
  - destruct (call_tool_known repr nm arguments Hk) as [[e' E] | [args E]].
    + left. rewrite E in He |- *. simpl in *. injection He as ->.
      split; [reflexivity|]. now apply (call_tool_raise_kind repr).
    + right. rewrite E, exec_run_respond in He |- *. simpl in *.
      apply reply_raises in He as (Ho & H1 & H2). eauto.
  - rewrite call_tool_unknown in He by assumption. discriminate.
Qed.

(** X10. When a call ends with an exception, either no invocation was made
    and the exception is the [KeyError] of the one required key read by
    subscript, absent from the bag, or the [TypeError] of [ctx_summarize]
    for paths that cannot be iterated; or one invocation was made and the
    exception is the one [subprocess.run] raised, which is neither
    [FileNotFoundError] nor [TimeoutExpired]. *)
Theorem call_tool_exceptions (repr : pyval -> string) (w : world) (t : nat)
    (nm : string) (arguments : gmap string pyval) (e : exn) :
  snd (exec w t (call_tool repr nm arguments)) = Raises e ->
  (fst (exec w t (call_tool repr nm arguments)) = [] /\
   ((exists key, e = KeyError key /\ declared_required nm = [key] /\
                 arguments !! key = None /\ nm <> "ctx_summarize"%string) \/
    (exists msg, e = TypeError msg /\ nm = "ctx_summarize"%string /\
                 iterable (dict_get_default arguments "paths" (PyList [])) = false))) \/
  (exists inv, fst (exec w t (call_tool repr nm arguments)) = [inv] /\
               inv_outcome inv = Raised e /\
               e <> FileNotFoundError /\ e <> TimeoutExpired).
Proof.
  apply raised_exception_origin.
Qed.

Lemma call_tool_exceptions_witness :
  (fst (exec (fun _ _ _ => Raised (OtherException "PermissionError")) 0
          (call_tool repr_opaque "ctx_version" ∅)) = [] /\
   ((exists key, OtherException "PermissionError" = KeyError key /\
                 declared_required "ctx_version" = [key] /\
                 (∅ : gmap string pyval) !! key = None /\
                 "ctx_version"%string <> "ctx_summarize"%string) \/
    (exists msg, OtherException "PermissionError" = TypeError msg /\
                 "ctx_version"%string = "ctx_summarize"%string /\
                 iterable (dict_get_default ∅ "paths" (PyList [])) = false))) \/
  (exists inv,
      fst (exec (fun _ _ _ => Raised (OtherException "PermissionError")) 0
             (call_tool repr_opaque "ctx_version" ∅)) = [inv] /\
      inv_outcome inv = Raised (OtherException "PermissionError") /\
      OtherException "PermissionError" <> FileNotFoundError /\
      OtherException "PermissionError" <> TimeoutExpired).
Proof.
  apply (call_tool_exceptions repr_opaque
           (fun _ _ _ => Raised (OtherException "PermissionError")) 0
           "ctx_version" ∅ (OtherException "PermissionError")).
  reflexivity.
Defined.

(** X11. [FileNotFoundError] and [TimeoutExpired] never leave [call_tool],
    whatever the tool name, the argument bag and the world: a backend that
    is missing or too slow always gives a response, not an exception. *)
Theorem start_and_timeout_failures_contained (repr : pyval -> string) (w : world)
    (t : nat) (nm : string) (arguments : gmap string pyval) :
  snd (exec w t (call_tool repr nm arguments)) <> Raises FileNotFoundError /\
  snd (exec w t (call_tool repr nm arguments)) <> Raises TimeoutExpired.
Proof.
  split; intros He; apply (raised_exception_origin repr w t nm arguments) in He;
    destruct He as [[_ [(k & Hk & _) | (m & Hm & _)]] | (inv & _ & _ & H1 & H2)];
    congruence.
Qed.

(** X12. Whenever [call_tool] returns, for a known tool or not, on success
    or on failure of the backend, the value is a list of exactly one text
    content, of type [text]. *)
Theorem response_is_single_text (repr : pyval -> string) (w : world) (t : nat)
    (nm : string) (arguments : gmap string pyval) (resp : list TextContent) :
  snd (exec w t (call_tool repr nm arguments)) = Returned resp ->
  exists s, resp = [{| type := "text"; text := s |}].
Proof.
  intros Hr. destruct (decide (nm ∈ tool_names)) as [Hk | Hk].
  - destruct (call_tool_known repr nm arguments Hk) as [[e' E] | [args E]].
    + rewrite E in Hr. discriminate.
    + rewrite E, exec_run_respond in Hr. simpl in Hr.
      now apply reply_returned in Hr.
  - rewrite call_tool_unknown in Hr by assumption. injection Hr as <-. eauto.
Qed.

Lemma response_is_single_text_witness :
  exists s,
    [text_content "Unknown tool: ctx_blame"] = [{| type := "text"; text := s |}].
Proof.
  apply (response_is_single_text repr_opaque (fun _ _ _ => Raised TimeoutExpired) 0
           "ctx_blame" ∅ [text_content "Unknown tool: ctx_blame"]).
  reflexivity.
Defined.

(** ** Argument bags that conform to the declared schema *)

Lemma scalar_strings (items : list pyval) :
  forallb (has_scalar_type "string") items = true -> forallb is_str items = true.
Proof.
  induction items as [|v items IH]; simpl; [reflexivity|].
  intros H. apply andb_prop in H as [Hv Hi]. rewrite IH by assumption.
  destruct v; simpl in *; try discriminate; reflexivity.
Qed.

Ltac conforming Hc :=
  unfold conforms in Hc; cbn in Hc; unfold has_key in Hc;
  unfold dict_get, dict_get_default, subscript;
  repeat match goal with
         | |- context [?m !! ?k] =>
             destruct (m !! k) as [[]|] eqn:?; cbn in Hc;
             rewrite ?andb_false_r, ?andb_true_r in Hc; try discriminate
         end;
  cbn [from_option id truthy bind py_iter];
  rewrite exec_run_respond; eexists; (split; [reflexivity|]).

Ltac finish_strings :=
  cbn;
  repeat match goal with
         | |- context [if ?b then _ else _] => destruct b
         end;
  cbn; rewrite ?forallb_app; cbn; rewrite ?andb_true_r;
  auto using scalar_strings.

(** X13. When the argument bag conforms to the input schema the catalog
    declares for the tool (required keys present, declared properties of
    their declared types, other keys free), [call_tool] raises nothing by
    itself: it makes exactly one invocation, and every argument of the
    command is a string. *)
Theorem conforming_arguments_all_strings (repr : pyval -> string) (w : world)
    (t : nat) (nm : string) (tool : Tool) (arguments : gmap string pyval) :
  find_tool nm = Some tool ->
  conforms tool arguments = true ->
  exists cmd,
    exec w t (call_tool repr nm arguments) =
      ([mkInvocation cmd 60 (w t cmd 60)], reply (w t cmd 60)) /\
    forallb is_str cmd = true.
Proof.
  intros Hf Hc. unfold find_tool, list_tools in Hf. cbn [find name] in Hf.
  repeat match type of Hf with
         | context [String.eqb ?a nm] =>
             destruct (String.eqb_spec a nm) as [<- | _]
         end; try discriminate; injection Hf as <-.
  - rewrite call_tool_status. conforming Hc. reflexivity.
  - rewrite call_tool_map. conforming Hc; try reflexivity; finish_strings.
  - rewrite call_tool_summarize. conforming Hc; finish_strings.
  - rewrite call_tool_search. conforming Hc; finish_strings.
  - rewrite call_tool_related. conforming Hc. reflexivity.
  - rewrite call_tool_diff_context. conforming Hc; finish_strings.
  - rewrite call_tool_schema. conforming Hc. reflexivity.
  - rewrite call_tool_version. conforming Hc. reflexivity.
Qed.


Lemma conforming_arguments_all_strings_witness :
  exists cmd,
    exec (fun _ _ _ => Raised TimeoutExpired) 0
      (call_tool repr_opaque "ctx_search"
         {[ "query"%string := PyStr "main"; "context"%string := PyInt 2 ]}) =
      ([mkInvocation cmd 60 (Raised TimeoutExpired)], reply (Raised TimeoutExpired)) /\
    forallb is_str cmd = true.
Proof.
  destruct (find_tool "ctx_search") as [tool|] eqn:Hf; [|discriminate].
  apply (conforming_arguments_all_strings repr_opaque
           (fun _ _ _ => Raised TimeoutExpired) 0 "ctx_search" tool
           {[ "query"%string := PyStr "main"; "context"%string := PyInt 2 ]} Hf).
  injection Hf as <-. reflexivity.
Defined.

(** ** What a response tells about the backend *)

Lemma string_app_inv_tail (a b tail : string) :
  (a +:+ tail = b +:+ tail)%string -> a = b.
Proof.
  revert b. induction a as [|c a IH]; intros [|d b] E.
  - reflexivity.
  - apply (f_equal String.length) in E.
    rewrite !string_length_app in E. simpl in E. lia.
  - apply (f_equal String.length) in E.
    rewrite !string_length_app in E. simpl in E. lia.
  - simpl in E. injection E as -> E. f_equal. now apply IH.
Qed.

(** X14. After a completed process the response depends on stderr only when
    the exit code is not 0, and on which nonzero exit code it was only when
    stderr is empty: a successful run drops stderr, a failed run with a
    non-empty stderr hides the exit code, and a failed run with an empty
    stderr shows it, so that two different codes give two different
    texts. *)
Theorem reply_dependencies (out err err' : string) (code code' : Z) :
  reply (Completed (mkCompleted out err 0)) =
  reply (Completed (mkCompleted out err' 0)) /\
  (err <> EmptyString -> code <> 0 -> code' <> 0 ->
   reply (Completed (mkCompleted out err code)) =
   reply (Completed (mkCompleted out err code'))) /\
  (code <> 0 -> code' <> 0 -> code <> code' ->
   reply (Completed (mkCompleted out EmptyString code)) <>
   reply (Completed (mkCompleted out EmptyString code'))).
Proof.
  unfold reply. cbn. split; [reflexivity|]. split.
  - intros He Hc Hc'.
    destruct (Z.eqb_spec code 0); [contradiction|].
    destruct (Z.eqb_spec code' 0); [contradiction|].
    cbn. unfold error_text.
    destruct (String.eqb_spec err EmptyString); [contradiction|]. reflexivity.
  - intros Hc Hc' Hne.
    destruct (Z.eqb_spec code 0); [contradiction|].
    destruct (Z.eqb_spec code' 0); [contradiction|].
    cbn. unfold error_text. cbn. intros [= E].
    apply string_app_inv_tail in E.
    change (pretty code = pretty code') in E.
    exact (Hne (pretty_Z_inj _ _ E)).
Qed.

Lemma reply_dependencies_witness :
  reply (Completed (mkCompleted "out" "boom" 2)) =
  reply (Completed (mkCompleted "out" "boom" (-11))) /\
  reply (Completed (mkCompleted "out" EmptyString 2)) <>
  reply (Completed (mkCompleted "out" EmptyString (-11))).
Proof.
  split.
  - apply (proj1 (proj2 (reply_dependencies "out" "boom" EmptyString 2 (-11))));
      discriminate.
  - apply (proj2 (proj2 (reply_dependencies "out" "boom" EmptyString 2 (-11))));
      discriminate.
Defined.

(** X15. The response text alone does not tell how the backend ended.  A
    process that fails with [(out, err, code)] is answered like a process
    that succeeds and prints the error text itself; a missing executable is
    answered like a process that exits with code 1 and the fixed message on
    stderr, and so is a timeout. *)
Theorem failures_not_distinguished (repr : pyval -> string) (t : nat)
    (nm : string) (arguments : gmap string pyval) (out err : string) (code : Z) :
  let answer (o : outcome) :=
    snd (exec (fun _ _ _ => o) t (call_tool repr nm arguments)) in
  (code <> 0 ->
   answer (Completed (mkCompleted out err code)) =
   answer (Completed (mkCompleted (error_text out err code) EmptyString 0))) /\
  answer (Raised FileNotFoundError) =
  answer (Completed (mkCompleted EmptyString
                       "ctx not found in PATH. Please install ctx first." 1)) /\
  answer (Raised TimeoutExpired) =
  answer (Completed (mkCompleted EmptyString "Command timed out after 60 seconds" 1)).
Proof.
  intros answer. subst answer. cbn beta.
  destruct (exec_call_tool repr nm arguments) as [[res E] | [args E]];
    rewrite !E; cbn [snd].
  - repeat split; reflexivity.
  - split; [|split; reflexivity].
    intros Hc. unfold reply. cbn.
    destruct (Z.eqb_spec code 0); [contradiction|]. reflexivity.
Qed.

Lemma failures_not_distinguished_witness :
  snd (exec (fun _ _ _ => Completed (mkCompleted "x" "bad ref" 128)) 0
         (call_tool repr_opaque "ctx_diff_context" ∅)) =
  snd (exec (fun _ _ _ =>
               Completed (mkCompleted (error_text "x" "bad ref" 128) EmptyString 0)) 0
         (call_tool repr_opaque "ctx_diff_context" ∅)).
Proof.
  apply (proj1 (failures_not_distinguished repr_opaque 0 "ctx_diff_context" ∅
                  "x" "bad ref" 128)).
  discriminate.
Defined.

(** ** Catalog and dispatcher *)

(** An argument bag with which every tool of the catalog reaches the
    backend. *)
Lemma full_bag_admissible (nm : string) :
  nm ∈ tool_names ->
  arguments_admissible nm
    {[ "query"%string := PyStr "q"; "file"%string := PyStr "f";
       "command"%string := PyStr "c" ]} = true.
Proof.
  intros H. known_tool H; reflexivity.
Qed.

(** X16. The catalog and the dispatcher agree on the tool names: the names
    [list_tools] announces are pairwise distinct, and they are exactly the
    names for which [call_tool] can reach the backend; for any other name no
    argument bag leads to an invocation. *)
Theorem catalog_matches_dispatcher (repr : pyval -> string) (nm : string) :
  NoDup tool_names /\
  (nm ∈ tool_names <->
   exists arguments, forall (w : world) (t : nat),
     length (fst (exec w t (call_tool repr nm arguments))) = 1%nat).
Proof.
  split.
  - unfold tool_names. cbn. repeat (apply NoDup_cons; split);
      rewrite ?not_elem_of_cons; repeat split; try discriminate;
      try apply not_elem_of_nil. apply NoDup_nil_2.
  - split.
    + intros Hk.
      destruct (call_tool_admissible repr nm _ Hk (full_bag_admissible nm Hk))
        as [args E].
      eexists. intros w t. rewrite E, exec_run_respond. reflexivity.
    + intros [arguments H]. destruct (decide (nm ∈ tool_names)) as [Hk | Hk]; [exact Hk|].
      specialize (H (fun _ _ _ => Raised TimeoutExpired) 0%nat).
      rewrite call_tool_unknown in H by assumption. discriminate.
Qed.

(** X17. Every property the catalog declares for a tool is read by the
    dispatcher: for each declared key there are an argument bag and a value
    such that the call with the key set differs from the call with the key
    removed. *)
Theorem declared_keys_matter (repr : pyval -> string) (nm key : string) :
  key ∈ declared_properties nm ->
  exists (v : pyval) (arguments : gmap string pyval),
    call_tool repr nm (<[key := v]> arguments) <>
    call_tool repr nm (delete key arguments).
Proof.
  intros H. exists (PyStr "x").
  exists {[ "query"%string := PyStr "q"; "file"%string := PyStr "f";
            "command"%string := PyStr "c" ]}.
  unfold declared_properties, find_tool, list_tools in H. cbn [find name] in H.
  repeat match type of H with
         | context [String.eqb ?a nm] =>
             destruct (String.eqb_spec a nm) as [<- | _];
             [cbn in H; rewrite ?elem_of_cons, ?elem_of_nil in H;
              repeat (destruct H as [-> | H]); try contradiction;
              vm_compute; intros E; discriminate E |]
         end.
  now apply elem_of_nil in H.
Qed.

Lemma declared_keys_matter_witness :
  exists (v : pyval) (arguments : gmap string pyval),
    call_tool repr_opaque "ctx_search" (<["caller"%string := v]> arguments) <>
    call_tool repr_opaque "ctx_search" (delete "caller"%string arguments).
Proof.
  apply (declared_keys_matter repr_opaque "ctx_search" "caller").
  cbn. rewrite !elem_of_cons. tauto.
Defined.

Lemma catalog_matches_dispatcher_witness :
  exists arguments, forall (w : world) (t : nat),
    length (fst (exec w t (call_tool repr_opaque "ctx_map" arguments))) = 1%nat.
Proof.
  apply (proj1 (proj2 (catalog_matches_dispatcher repr_opaque "ctx_map"))).
  rewrite known_tool_cases. tauto.
Defined.

(** X18. Every descriptor of the catalog is well formed: its name starts
    with [ctx_], each key it declares required is one of its declared
    properties, no property is declared twice, and each property declaration
    carries a type and a description. *)
Theorem catalog_well_formed (tools : list Tool) (t : Tool) :
  list_tools = Ret tools ->
  t ∈ tools ->
  (exists rest, name t = ("ctx_" +:+ rest)%string) /\
  required_keys t ⊆ property_keys t /\
  NoDup (property_keys t) /\
  forallb well_declared (property_declarations t) = true.
Proof.
  unfold list_tools. intros [= <-] Ht.
  rewrite !elem_of_cons, elem_of_nil in Ht.
  repeat (destruct Ht as [-> | Ht]); try contradiction;
    (split; [eexists; reflexivity|]);
    (split; [cbn; intros k; rewrite ?elem_of_cons; tauto|]);
    (split; [|reflexivity]); cbn;
    repeat (apply NoDup_cons; split);
    rewrite ?not_elem_of_cons; repeat split; try discriminate;
    try apply not_elem_of_nil; apply NoDup_nil_2.
Qed.

Lemma catalog_well_formed_witness :
  match find_tool "ctx_related" with
  | Some t => required_keys t ⊆ property_keys t
  | None => False
  end.
Proof.
  unfold find_tool, list_tools. cbn [find name String.eqb Ascii.eqb Bool.eqb].
  refine (proj1 (proj2 (catalog_well_formed _ _ eq_refl _))).
  do 4 apply list_elem_of_further. apply list_elem_of_here.
Defined.
